(** * beancount-n26: the N26 CSV importer

    A shallow embedding of [beancount_n26/__init__.py] and of the parts of
    the Python runtime it calls ([str.split], [str.strip], text files,
    [csv.DictReader], [re], [datetime.strptime], [decimal.Decimal]),
    followed by the properties of the importer.

    Python text is modelled as [string], a sequence of bytes holding the
    UTF-8 form of the text.  The comma, the double quote, the digits and the
    white space the importer looks for are ASCII, so splitting, stripping and
    comparing labels act on the bytes as they act on the code points.  Character
    classes of the library models (digits, letters for case folding, white
    space) are the ASCII ones. *)

From Stdlib Require Import String Ascii List Bool Arith ZArith NArith Lia.
From Stdlib Require Import Permutation.
Import ListNotations.

Local Open Scope string_scope.
Local Open Scope list_scope.

Set Implicit Arguments.

(** ** Exceptions and the error monad *)

(** The exceptions the importer and the library calls it makes can raise.
    [UnicodeDecodeError] is a subclass of [ValueError] in Python. *)
Inductive exn : Type :=
  | OSError
  | LookupError
  | UnicodeDecodeError
  | ValueError
  | KeyError (key : string)
  | TypeError
  | InvalidOperation
  | ReError
  | CsvError
  | AssertionError (msg : string)
  | InvalidFormatError (msg : string).

(** [except ValueError] catches the exceptions for which this holds. *)
Definition is_ValueError (e : exn) : bool :=
  match e with
  | UnicodeDecodeError | ValueError => true
  | _ => false
  end.

(** A computation either raises or returns. *)
Definition result (A : Type) : Type := (exn + A)%type.

Definition ret {A} (a : A) : result A := inr a.
Definition raise {A} (e : exn) : result A := inl e.
Definition bind {A B} (m : result A) (k : A -> result B) : result B :=
  match m with
  | inl e => inl e
  | inr a => k a
  end.

Notation "x <- m ;; k" := (bind m (fun x => k))
  (at level 61, m at next level, right associativity).

Definition raises {A} (m : result A) : Prop := exists e, m = inl e.

(** ** Python strings *)

Module PyStr.

Definition dquote : ascii := "034"%char.
Definition comma : ascii := ","%char.
Definition newline : ascii := "010"%char.
Definition carriage_return : ascii := "013"%char.

(** [sep.join(parts)] for a one-character separator. *)
Fixpoint join (sep : ascii) (parts : list string) : string :=
  match parts with
  | [] => ""
  | [p] => p
  | p :: rest => p ++ String sep (join sep rest)
  end.

(** [s.split(sep)] for a one-character separator: every occurrence
    splits, and the empty string gives one empty token. *)
Fixpoint split (sep : ascii) (s : string) : list string :=
  match s with
  | EmptyString => [""]
  | String c s' =>
      if Ascii.eqb c sep then "" :: split sep s'
      else match split sep s' with
           | [] => [String c ""]
           | tok :: toks => String c tok :: toks
           end
  end.

(** [s.lstrip(chars)], [s.rstrip(chars)] and [s.strip(chars)], with the
    set of characters given as a predicate. *)
Fixpoint lstrip (p : ascii -> bool) (s : string) : string :=
  match s with
  | EmptyString => ""
  | String c s' => if p c then lstrip p s' else s
  end.

Fixpoint rstrip (p : ascii -> bool) (s : string) : string :=
  match s with
  | EmptyString => ""
  | String c s' =>
      match rstrip p s' with
      | EmptyString => if p c then "" else String c ""
      | r => String c r
      end
  end.

Definition strip (p : ascii -> bool) (s : string) : string :=
  rstrip p (lstrip p s).

Definition is_dquote (c : ascii) : bool := Ascii.eqb c dquote.

(** The ASCII characters [str.isspace] accepts: tab, line feed, vertical
    tab, form feed, carriage return, the four separators 28..31, space. *)
Definition is_space (c : ascii) : bool :=
  let n := nat_of_ascii c in
  (((9 <=? n) && (n <=? 13)) || ((28 <=? n) && (n <=? 32)))%nat.

Definition is_digit (c : ascii) : bool :=
  let n := nat_of_ascii c in ((48 <=? n) && (n <=? 57))%nat.

Definition digit_val (c : ascii) : N := N.of_nat (nat_of_ascii c - 48).

(** ASCII lower-casing, the case folding of [re.IGNORECASE] on ASCII. *)
Definition lower (c : ascii) : ascii :=
  let n := nat_of_ascii c in
  if ((65 <=? n) && (n <=? 90))%nat then ascii_of_nat (n + 32) else c.

Fixpoint all_chars (p : ascii -> bool) (s : string) : bool :=
  match s with
  | EmptyString => true
  | String c s' => p c && all_chars p s'
  end.

(** [int(s)] on a string of ASCII digits. *)
Fixpoint int_of_digits_acc (acc : N) (s : string) : N :=
  match s with
  | EmptyString => acc
  | String c s' => int_of_digits_acc (10 * acc + digit_val c)%N s'
  end.

Definition int_of_digits (s : string) : N := int_of_digits_acc 0 s.

(** Truthiness of a string: only the empty string is false. *)
Definition truthy (s : string) : bool :=
  match s with
  | EmptyString => false
  | _ => true
  end.

End PyStr.

(** ** Ordered dictionaries

    A [dict] (or [OrderedDict]) with string keys, in insertion order.  Keys
    are unique: [dict_set] overwrites in place. *)

Section Dict.
Variable V : Type.

Definition dict := list (string * V).

Fixpoint dict_get (k : string) (d : dict) : option V :=
  match d with
  | [] => None
  | (k', v) :: d' => if String.eqb k' k then Some v else dict_get k d'
  end.

Fixpoint dict_set (k : string) (v : V) (d : dict) : dict :=
  match d with
  | [] => [(k, v)]
  | (k', v') :: d' =>
      if String.eqb k' k then (k', v) :: d' else (k', v') :: dict_set k v d'
  end.

(** [del d[k]]; the importer only deletes keys that are present. *)
Fixpoint dict_del (k : string) (d : dict) : dict :=
  match d with
  | [] => []
  | (k', v') :: d' =>
      if String.eqb k' k then d' else (k', v') :: dict_del k d'
  end.

Definition dict_values (d : dict) : list V := map snd d.

(** [d[k]], raising [KeyError]. *)
Definition dict_item (k : string) (d : dict) : result V :=
  match dict_get k d with
  | Some v => ret v
  | None => raise (KeyError k)
  end.
End Dict.

(** ** The language schema table *)

Record field : Type := { label : string; optional : bool }.

Definition mk (l : string) (o : bool) : field := {| label := l; optional := o |}.

Definition HEADER_FIELDS : dict (dict field) :=
  [ ("en",
      [ ("date", mk "Date" false);
        ("payee", mk "Payee" false);
        ("account_number", mk "Account number" false);
        ("transaction_type", mk "Transaction type" false);
        ("payment_reference", mk "Payment reference" false);
        ("category", mk "Category" true);
        ("amount_eur", mk "Amount (EUR)" false);
        ("amount_foreign_currency", mk "Amount (Foreign Currency)" false);
        ("type_foreign_currency", mk "Type Foreign Currency" false);
        ("exchange_rate", mk "Exchange Rate" false) ]);
    ("de",
      [ ("date", mk "Datum" false);
        ("payee", mk "Empfänger" false);
        ("account_number", mk "Kontonummer" false);
        ("transaction_type", mk "Transaktionstyp" false);
        ("payment_reference", mk "Verwendungszweck" false);
        ("category", mk "Kategorie" true);
        ("amount_eur", mk "Betrag (EUR)" false);
        ("amount_foreign_currency", mk "Betrag (Fremdwährung)" false);
        ("type_foreign_currency", mk "Fremdwährung" false);
        ("exchange_rate", mk "Wechselkurs" false) ]);
    ("fr",
      [ ("date", mk "Date" false);
        ("payee", mk "Bénéficiaire" false);
        ("account_number", mk "Numéro de compte" false);
        ("transaction_type", mk "Type de transaction" false);
        ("payment_reference", mk "Référence de paiement" false);
        ("category", mk "Catégorie" true);
        ("amount_eur", mk "Montant (EUR)" false);
        ("amount_foreign_currency", mk "Montant (Devise étrangère)" false);
        ("type_foreign_currency", mk "Sélectionnez la devise étrangère" false);
        ("exchange_rate", mk "Taux de conversion" false) ]) ].

Definition _is_language_supported (language : string) : bool :=
  match dict_get language HEADER_FIELDS with
  | Some _ => true
  | None => false
  end.

Definition _translation_strings_for (language : string) : result (dict string) :=
  fields <- dict_item language HEADER_FIELDS ;;
  ret (map (fun kv => (fst kv, label (snd kv))) fields).

Definition _header_values_for (language : string) (include_optional : bool)
  : result (list string) :=
  headers <- _translation_strings_for language ;;
  if negb include_optional then
    fields <- dict_item language HEADER_FIELDS ;;
    ret (dict_values
           (fold_left
              (fun hs kv => if optional (snd kv) then dict_del (fst kv) hs else hs)
              fields headers))
  else ret (dict_values headers).

(** ** The header matcher *)

(** The loop [for expected, actual in zip(...): if expected != actual:
    return False], followed by [return True]. *)
Fixpoint all_equal (pairs : list (string * string)) : bool :=
  match pairs with
  | [] => true
  | (expected, actual) :: rest =>
      if negb (String.eqb expected actual) then false else all_equal rest
  end.

(** The list comprehension over [line.split(',')] that strips the double
    quotes around each column. *)
Definition header_tokens (line : string) : list string :=
  map (PyStr.strip PyStr.is_dquote) (PyStr.split PyStr.comma line).

Definition is_valid_header (language : string) (line : string) : result bool :=
  expected_values <- _header_values_for language true ;;
  let actual_values := header_tokens line in
  if negb (Nat.eqb (List.length expected_values) (List.length actual_values)) then
    expected_values <- _header_values_for language false ;;
    if negb (Nat.eqb (List.length expected_values) (List.length actual_values)) then ret false
    else ret (all_equal (combine expected_values actual_values))
  else ret (all_equal (combine expected_values actual_values)).

(** ** Text files

    [open(name, encoding=enc)] followed by reading.  The file system gives,
    for a name and an encoding, either the exception that opening or
    decoding raises, or the decoded text.  Files are opened with the default
    newline mode, which translates [\r\n] and [\r] to [\n]. *)

Module TextIO.

Inductive outcome : Type :=
  | Raises (e : exn)
  | Decoded (text : string).

Definition filesystem : Type := string -> string -> outcome.

Fixpoint universal_newlines (s : string) : string :=
  match s with
  | EmptyString => ""
  | String c s' =>
      if Ascii.eqb c PyStr.carriage_return then
        String PyStr.newline
          match s' with
          | EmptyString => ""
          | String c' s'' =>
              if Ascii.eqb c' PyStr.newline then universal_newlines s''
              else universal_newlines s'
          end
      else String c (universal_newlines s')
  end.

(** [fd.readline()] on a fresh file object: the first line with its
    line feed, or the whole text when it has none. *)
Fixpoint readline (s : string) : string :=
  match s with
  | EmptyString => ""
  | String c s' =>
      if Ascii.eqb c PyStr.newline then String c "" else String c (readline s')
  end.

(** Iterating over the file object: the lines, each with its line feed. *)
Fixpoint readlines (s : string) : list string :=
  match s with
  | EmptyString => []
  | String c s' =>
      if Ascii.eqb c PyStr.newline then String c "" :: readlines s'
      else match readlines s' with
           | [] => [String c ""]
           | l :: ls => String c l :: ls
           end
  end.

End TextIO.

(** ** The csv module

    [csv.reader] with [delimiter=','], [quotechar] the double quote,
    [quoting=csv.QUOTE_MINIMAL] and the defaults [doublequote=True],
    [escapechar=None], [skipinitialspace=False], [strict=False]: the state
    machine of the C implementation.  The limit on the size of a field is
    not modelled.  The records are read to the end before the importer uses
    them; on the lines of a text file the reader does not raise (see
    [rows_of_total]), so this is what reading them on demand gives. *)

Module Csv.

Inductive state : Type :=
  | START_RECORD
  | START_FIELD
  | IN_FIELD
  | IN_QUOTED_FIELD
  | QUOTE_IN_QUOTED_FIELD
  | EAT_CRNL.

Definition state_eqb (a b : state) : bool :=
  match a, b with
  | START_RECORD, START_RECORD | START_FIELD, START_FIELD
  | IN_FIELD, IN_FIELD | IN_QUOTED_FIELD, IN_QUOTED_FIELD
  | QUOTE_IN_QUOTED_FIELD, QUOTE_IN_QUOTED_FIELD | EAT_CRNL, EAT_CRNL => true
  | _, _ => false
  end.

(** The parser: its state, the characters of the current field (last one
    first) and the fields saved so far. *)
Record parser : Type :=
  { st : state; cur : list ascii; fields : list string }.

Definition parse_reset : parser :=
  {| st := START_RECORD; cur := []; fields := [] |}.

Definition parse_save_field (p : parser) : parser :=
  {| st := st p;
     cur := [];
     fields := fields p ++ [string_of_list_ascii (rev (cur p))] |}.

Definition parse_add_char (c : ascii) (p : parser) : parser :=
  {| st := st p; cur := c :: cur p; fields := fields p |}.

Definition set_state (s : state) (p : parser) : parser :=
  {| st := s; cur := cur p; fields := fields p |}.

Definition is_eol_char (c : ascii) : bool :=
  Ascii.eqb c PyStr.newline || Ascii.eqb c PyStr.carriage_return.

(** [parse_process_char]; [None] is the end-of-line mark the reader
    feeds after the characters of each line. *)
Definition parse_process_char (p : parser) (c : option ascii) : result parser :=
  let end_of_field (p : parser) :=
    ret (set_state (match c with None => START_RECORD | Some _ => EAT_CRNL end)
                   (parse_save_field p)) in
  let start_field (p : parser) :=
    match c with
    | None => end_of_field p
    | Some ch =>
        if is_eol_char ch then end_of_field p
        else if Ascii.eqb ch PyStr.dquote then ret (set_state IN_QUOTED_FIELD p)
        else if Ascii.eqb ch PyStr.comma then ret (parse_save_field p)
        else ret (set_state IN_FIELD (parse_add_char ch p))
    end in
  match st p with
  | START_RECORD =>
      match c with
      | None => ret p
      | Some ch =>
          if is_eol_char ch then ret (set_state EAT_CRNL p)
          else start_field (set_state START_FIELD p)
      end
  | START_FIELD => start_field p
  | IN_FIELD =>
      match c with
      | None => end_of_field p
      | Some ch =>
          if is_eol_char ch then end_of_field p
          else if Ascii.eqb ch PyStr.comma then
            ret (set_state START_FIELD (parse_save_field p))
          else ret (parse_add_char ch p)
      end
  | IN_QUOTED_FIELD =>
      match c with
      | None => ret p
      | Some ch =>
          if Ascii.eqb ch PyStr.dquote then ret (set_state QUOTE_IN_QUOTED_FIELD p)
          else ret (parse_add_char ch p)
      end
  | QUOTE_IN_QUOTED_FIELD =>
      match c with
      | None => end_of_field p
      | Some ch =>
          if Ascii.eqb ch PyStr.dquote then
            ret (set_state IN_QUOTED_FIELD (parse_add_char ch p))
          else if Ascii.eqb ch PyStr.comma then
            ret (set_state START_FIELD (parse_save_field p))
          else if is_eol_char ch then end_of_field p
          else ret (set_state IN_FIELD (parse_add_char ch p))
      end
  | EAT_CRNL =>
      match c with
      | None => ret (set_state START_RECORD p)
      | Some ch => if is_eol_char ch then ret p else raise CsvError
      end
  end.

(** One line: its characters, then the end-of-line mark. *)
Fixpoint parse_chars (p : parser) (s : string) : result parser :=
  match s with
  | EmptyString => parse_process_char p None
  | String c s' =>
      p' <- parse_process_char p (Some c) ;;
      parse_chars p' s'
  end.

(** The records [csv.reader] yields over the given lines.  A record ends
    with the line that brings the parser back to [START_RECORD]; when the
    input ends inside a quoted field, what was read is the last record. *)
Fixpoint reader_from (p : parser) (lines : list string) : result (list (list string)) :=
  match lines with
  | [] =>
      if negb (Nat.eqb (List.length (cur p)) 0) || state_eqb (st p) IN_QUOTED_FIELD
      then ret [fields (parse_save_field p)]
      else ret []
  | l :: rest =>
      p' <- parse_chars p l ;;
      if state_eqb (st p') START_RECORD then
        records <- reader_from parse_reset rest ;;
        ret (fields p' :: records)
      else reader_from p' rest
  end.

Definition reader (lines : list string) : result (list (list string)) :=
  reader_from parse_reset lines.

(** A row of [csv.DictReader]: [dict(zip(fieldnames, row))], with the
    value [None] for the field names a short row does not reach.  The
    surplus values of a long row, which Python stores under the key
    [None], are left out: no label is looked up there. *)
Definition row : Type := dict (option string).

Definition is_empty_record (r : list string) : bool :=
  match r with
  | [] => true
  | _ => false
  end.

Definition make_row (fieldnames : list string) (r : list string) : row :=
  let d := fold_left (fun d kv => dict_set (fst kv) (Some (snd kv)) d)
                     (combine fieldnames r) [] in
  fold_left (fun d k => dict_set k None d) (skipn (List.length r) fieldnames) d.

(** The rows [csv.DictReader] yields: the first record gives the field
    names, and empty records (blank lines) after it are skipped. *)
Definition DictReader (lines : list string) : result (list row) :=
  records <- reader lines ;;
  match records with
  | [] => ret []
  | fieldnames :: rows =>
      ret (map (make_row fieldnames)
               (filter (fun r => negb (is_empty_record r)) rows))
  end.

End Csv.

(** ** The re module

    [re.compile(pattern, flags=re.IGNORECASE)] and [Pattern.match] for a
    fragment of the pattern syntax: literal characters, [.], [^], groups,
    [|] and the repetitions [*], [+] and [?].  A pattern outside the
    fragment is answered like a malformed one, with [re.error]. *)

Module Re.

Inductive regex : Type :=
  | Empty
  | Eps
  | Chr (c : ascii)
  | Any
  | Bol
  | Cat (r1 r2 : regex)
  | Alt (r1 r2 : regex)
  | Star (r : regex).

(** Two characters are the same under [re.IGNORECASE]. *)
Definition eq_ci (a b : ascii) : bool :=
  Ascii.eqb (PyStr.lower a) (PyStr.lower b).


(** The matcher, by derivatives. *)
Fixpoint nullable (at_start : bool) (r : regex) : bool :=
  match r with
  | Empty | Chr _ | Any => false
  | Eps | Star _ => true
  | Bol => at_start
  | Cat r1 r2 => nullable at_start r1 && nullable at_start r2
  | Alt r1 r2 => nullable at_start r1 || nullable at_start r2
  end.

(** What is left of [r] after the character [c], read at a position
    described by [at_start]; the result is to be matched past the start. *)
Fixpoint deriv (at_start : bool) (c : ascii) (r : regex) : regex :=
  match r with
  | Empty | Eps | Bol => Empty
  | Chr a => if eq_ci a c then Eps else Empty
  | Any => if Ascii.eqb c PyStr.newline then Empty else Eps
  | Cat r1 r2 =>
      Alt (Cat (deriv at_start c r1) r2)
          (if nullable at_start r1 then deriv at_start c r2 else Empty)
  | Alt r1 r2 => Alt (deriv at_start c r1) (deriv at_start c r2)
  | Star r1 => Cat (deriv at_start c r1) (Star r1)
  end.

(** Does [r] match some prefix of [w]? *)
Fixpoint match_prefix (at_start : bool) (r : regex) (w : list ascii) : bool :=
  nullable at_start r ||
  match w with
  | [] => false
  | c :: w' => match_prefix false (deriv at_start c r) w'
  end.

(** *** Parsing patterns *)

Definition backslash : ascii := "092"%char.

Definition is_alnum (c : ascii) : bool :=
  let n := nat_of_ascii c in
  (((48 <=? n) && (n <=? 57)) || ((65 <=? n) && (n <=? 90))
   || ((97 <=? n) && (n <=? 122)))%nat.

Definition is_repeat (c : ascii) : bool :=
  Ascii.eqb c "*" || Ascii.eqb c "+" || Ascii.eqb c "?" || Ascii.eqb c "{".

Definition starts_with_repeat (s : list ascii) : bool :=
  match s with
  | c :: _ => is_repeat c
  | [] => false
  end.

Definition is_anchor (r : regex) : bool :=
  match r with
  | Bol => true
  | _ => false
  end.

(** An atom followed by at most one repetition.  A repetition of [^]
    is an error (nothing to repeat); a second repetition mark is an
    error or a lazy or possessive repetition, outside the fragment. *)
Definition parse_repeat (r : regex) (s : list ascii) : option (regex * list ascii) :=
  match s with
  | c :: s' =>
      if Ascii.eqb c "{" then None
      else if is_repeat c then
        if is_anchor r || starts_with_repeat s' then None
        else if Ascii.eqb c "*" then Some (Star r, s')
        else if Ascii.eqb c "+" then Some (Cat r (Star r), s')
        else Some (Alt r Eps, s')
      else Some (r, s)
  | [] => Some (r, s)
  end.

Fixpoint parse_alt (fuel : nat) (s : list ascii) : option (regex * list ascii) :=
  match fuel with
  | O => None
  | S fuel' =>
      match parse_seq fuel' s with
      | Some (r, c :: s') =>
          if Ascii.eqb c "|" then
            match parse_alt fuel' s' with
            | Some (r', s'') => Some (Alt r r', s'')
            | None => None
            end
          else Some (r, c :: s')
      | other => other
      end
  end
with parse_seq (fuel : nat) (s : list ascii) : option (regex * list ascii) :=
  match fuel with
  | O => None
  | S fuel' =>
      match s with
      | [] => Some (Eps, [])
      | c :: _ =>
          if Ascii.eqb c "|" || Ascii.eqb c ")" then Some (Eps, s)
          else
            match parse_atom fuel' s with
            | Some (r, s') =>
                match parse_repeat r s' with
                | Some (r1, s1) =>
                    match parse_seq fuel' s1 with
                    | Some (r2, s2) => Some (Cat r1 r2, s2)
                    | None => None
                    end
                | None => None
                end
            | None => None
            end
      end
  end
with parse_atom (fuel : nat) (s : list ascii) : option (regex * list ascii) :=
  match fuel with
  | O => None
  | S fuel' =>
      match s with
      | [] => None
      | c :: s' =>
          if Ascii.eqb c "(" then
            if match s' with c' :: _ => Ascii.eqb c' "?" | [] => false end then None
            else
              match parse_alt fuel' s' with
              | Some (r, c' :: s'') =>
                  if Ascii.eqb c' ")" then Some (r, s'') else None
              | _ => None
              end
          else if Ascii.eqb c "." then Some (Any, s')
          else if Ascii.eqb c "^" then Some (Bol, s')
          else if Ascii.eqb c backslash then
            match s' with
            | c' :: s'' => if is_alnum c' then None else Some (Chr c', s'')
            | [] => None
            end
          else if is_repeat c || Ascii.eqb c "[" || Ascii.eqb c "$" then None
          else Some (Chr c, s')
      end
  end.

(** A compiled pattern keeps its source, as [Pattern.pattern] does; two
    compiled patterns with the same flags are equal when their sources
    are. *)
Record Pattern : Type := { pattern : string; code : regex }.

Definition Pattern_eqb (p q : Pattern) : bool :=
  String.eqb (pattern p) (pattern q).

(** [re.compile(pattern, flags=re.IGNORECASE)]. *)
Definition compile (pat : string) : result Pattern :=
  let s := list_ascii_of_string pat in
  match parse_alt (4 * List.length s + 8) s with
  | Some (r, []) => ret {| pattern := pat; code := r |}
  | _ => raise ReError
  end.

(** [p.match(text)], as a truth value: is there a match at position 0? *)
Definition match_ (p : Pattern) (text : string) : bool :=
  match_prefix true (code p) (list_ascii_of_string text).

End Re.

(** ** datetime

    Calendar dates and [datetime.strptime(s, '%Y-%m-%d').date()]. *)

Module Datetime.

Record date : Type := { year : N; month : N; day : N }.

(** [a > b] on dates. *)
Definition date_gtb (a b : date) : bool :=
  ((year b <? year a)
   || ((year b =? year a)
       && ((month b <? month a)
           || ((month b =? month a) && (day b <? day a)))))%N.

Definition is_leap (y : N) : bool :=
  (((y mod 4 =? 0) && negb (y mod 100 =? 0)) || (y mod 400 =? 0))%N.

Definition days_in_month (y m : N) : N :=
  (if m =? 2 then (if is_leap y then 29 else 28)
   else if (m =? 4) || (m =? 6) || (m =? 9) || (m =? 11) then 30
   else 31)%N.

(** [datetime.date(y, m, d)]: [ValueError] outside the calendar. *)
Definition make_date (y m d : N) : result date :=
  if ((1 <=? y) && (y <=? 9999) && (1 <=? m) && (m <=? 12)
      && (1 <=? d) && (d <=? days_in_month y m))%N
  then ret {| year := y; month := m; day := d |}
  else raise ValueError.

Definition in_range (lo hi : ascii) (c : ascii) : bool :=
  ((nat_of_ascii lo <=? nat_of_ascii c) && (nat_of_ascii c <=? nat_of_ascii hi))%nat.

Definition two (a b : ascii) : N := (10 * PyStr.digit_val a + PyStr.digit_val b)%N.

(** The directive [%m] is the pattern [1[0-2]|0[1-9]|[1-9]]: the ways it
    matches at the head of [s], in the order the matcher tries them, each
    with the text that follows. *)
Definition month_matches (s : list ascii) : list (N * list ascii) :=
  match s with
  | a :: b :: rest =>
      (if Ascii.eqb a "1" && in_range "0" "2" b then [(two a b, rest)] else [])
      ++ (if Ascii.eqb a "0" && in_range "1" "9" b then [(two a b, rest)] else [])
      ++ (if in_range "1" "9" a then [(PyStr.digit_val a, b :: rest)] else [])
  | [a] => if in_range "1" "9" a then [(PyStr.digit_val a, [])] else []
  | [] => []
  end.

(** The directive [%d] is [3[0-1]|[1-2]\d|0[1-9]|[1-9]| [1-9]]. *)
Definition day_matches (s : list ascii) : list (N * list ascii) :=
  match s with
  | a :: b :: rest =>
      (if Ascii.eqb a "3" && in_range "0" "1" b then [(two a b, rest)] else [])
      ++ (if in_range "1" "2" a && PyStr.is_digit b then [(two a b, rest)] else [])
      ++ (if Ascii.eqb a "0" && in_range "1" "9" b then [(two a b, rest)] else [])
      ++ (if in_range "1" "9" a then [(PyStr.digit_val a, b :: rest)] else [])
      ++ (if Ascii.eqb a " " && in_range "1" "9" b then [(PyStr.digit_val b, rest)] else [])
  | [a] => if in_range "1" "9" a then [(PyStr.digit_val a, [])] else []
  | [] => []
  end.

(** The first way to match [-%d] after a month. *)
Definition after_month (s : list ascii) : option (N * list ascii) :=
  match s with
  | c :: s' => if Ascii.eqb c "-" then hd_error (day_matches s') else None
  | [] => None
  end.

(** The first match of [%m-%d] in the order of the matcher: the first
    month alternative after which [-%d] matches. *)
Fixpoint first_month_day (ms : list (N * list ascii)) : option (N * N * list ascii) :=
  match ms with
  | [] => None
  | (m, rest) :: ms' =>
      match after_month rest with
      | Some (d, rest') => Some (m, d, rest')
      | None => first_month_day ms'
      end
  end.

(** [datetime.strptime(s, '%Y-%m-%d').date()]: the format matched at the
    head of [s] ([%Y] is four digits), [ValueError] when it does not
    match or when text remains after the match, then the date built. *)
Definition strptime_ymd (s : string) : result date :=
  match list_ascii_of_string s with
  | y1 :: y2 :: y3 :: y4 :: dash :: rest =>
      if PyStr.is_digit y1 && PyStr.is_digit y2 && PyStr.is_digit y3
         && PyStr.is_digit y4 && Ascii.eqb dash "-"
      then
        match first_month_day (month_matches rest) with
        | Some (m, d, []) =>
            make_date (PyStr.int_of_digits (string_of_list_ascii [y1; y2; y3; y4])) m d
        | _ => raise ValueError
        end
      else raise ValueError
  | _ => raise ValueError
  end.

End Datetime.

(** ** decimal

    [decimal.Decimal(s)] for a string [s]: the value read exactly. *)

Module PyDecimal.

Inductive Decimal : Type :=
  | Finite (negative : bool) (coefficient : N) (exponent : Z)
  | Infinity (negative : bool)
  | NaN (negative : bool) (signaling : bool) (diagnostic : N).

Definition is_underscore (c : ascii) : bool := Ascii.eqb c "_".

Fixpoint remove_underscores (s : list ascii) : list ascii :=
  match s with
  | [] => []
  | c :: s' => if is_underscore c then remove_underscores s' else c :: remove_underscores s'
  end.

(** The longest run of digits at the head of [s], and what follows. *)
Fixpoint span_digits (s : list ascii) : list ascii * list ascii :=
  match s with
  | c :: s' =>
      if PyStr.is_digit c then
        let (ds, rest) := span_digits s' in (c :: ds, rest)
      else ([], s)
  | [] => ([], [])
  end.

Definition int_of (ds : list ascii) : N :=
  PyStr.int_of_digits (string_of_list_ascii ds).

Definition split_sign (s : list ascii) : bool * list ascii :=
  match s with
  | c :: s' =>
      if Ascii.eqb c "-" then (true, s')
      else if Ascii.eqb c "+" then (false, s')
      else (false, s)
  | [] => (false, [])
  end.

(** The exponent part [E[-+]?\d+], or nothing. *)
Definition parse_exponent (s : list ascii) : option Z :=
  match s with
  | [] => Some 0%Z
  | e :: s' =>
      if Re.eq_ci e "e" then
        let (neg, s'') := split_sign s' in
        match span_digits s'' with
        | ((_ :: _) as ds, []) =>
            Some (if neg then Z.opp (Z.of_N (int_of ds)) else Z.of_N (int_of ds))
        | _ => None
        end
      else None
  end.

Definition lower_string (s : list ascii) : string :=
  string_of_list_ascii (map PyStr.lower s).

(** [Some rest] when [s] is [pre] followed by [rest]. *)
Fixpoint starts_with (pre s : string) : option string :=
  match pre, s with
  | EmptyString, _ => Some s
  | String a pre', String b s' =>
      if Ascii.eqb a b then starts_with pre' s' else None
  | String _ _, EmptyString => None
  end.

Definition nan_of (neg signaling : bool) (diag : string) : result Decimal :=
  if PyStr.all_chars PyStr.is_digit diag
  then ret (NaN neg signaling (PyStr.int_of_digits diag))
  else raise InvalidOperation.

(** The number after the sign: digits with an optional point and
    exponent (at least one digit before the exponent), an infinity, or a
    quiet or signaling NaN with its diagnostic digits. *)
Definition parse_unsigned (neg : bool) (s : list ascii) : result Decimal :=
  let (intpart, rest) := span_digits s in
  let '(fracpart, rest') :=
    match rest with
    | c :: r => if Ascii.eqb c "." then span_digits r else ([], rest)
    | [] => ([], [])
    end in
  match intpart ++ fracpart with
  | (_ :: _) as digits =>
      match parse_exponent rest' with
      | Some e =>
          ret (Finite neg (int_of digits) (e - Z.of_nat (List.length fracpart)))
      | None => raise InvalidOperation
      end
  | [] =>
      let l := lower_string s in
      if String.eqb l "inf" || String.eqb l "infinity" then ret (Infinity neg)
      else
        match starts_with "nan" l, starts_with "snan" l with
        | Some diag, _ => nan_of neg false diag
        | None, Some diag => nan_of neg true diag
        | None, None => raise InvalidOperation
        end
  end.

(** [Decimal(s)]: white space around the number is dropped, underscores
    are dropped, and what does not read as a number raises
    [decimal.InvalidOperation]. *)
Definition of_string (s : string) : result Decimal :=
  let body := remove_underscores
                (list_ascii_of_string (PyStr.strip PyStr.is_space s)) in
  let (neg, rest) := split_sign body in
  parse_unsigned neg rest.

End PyDecimal.

(** ** The records of the ledger

    [beancount.core.data]: the fields of [Posting] and [Transaction] the
    importer fills.  The cost, price, flag and metadata of a posting are
    always [None] and the tags and links of a transaction are always the
    empty set, so they are left out. *)

Record Amount : Type := { number : PyDecimal.Decimal; currency : string }.

Record Posting : Type := { posting_account : string; units : option Amount }.

Record Metadata : Type := { filename : string; lineno : nat }.

Record Transaction : Type :=
  { meta : Metadata;
    date : Datetime.date;
    flag : string;
    payee : option string;
    narration : option string;
    postings : list Posting }.

(** [ImporterProtocol.FLAG]. *)
Definition FLAG : string := "*".

(** ** The importer *)

Record PayeePattern : Type := { regex : Re.Pattern; account : string }.

Definition PayeePattern_eqb (a b : PayeePattern) : bool :=
  Re.Pattern_eqb (regex a) (regex b) && String.eqb (account a) (account b).

(** [set.add] on a set kept as the list of its elements in the order they
    were added. *)
Definition set_add (x : PayeePattern) (s : list PayeePattern) : list PayeePattern :=
  if existsb (PayeePattern_eqb x) s then s else s ++ [x].

Definition str_set_add (x : string) (s : list string) : list string :=
  if existsb (String.eqb x) s then s else s ++ [x].

(** The attributes of an importer; [own_account] is [self.account]. *)
Record N26Importer : Type :=
  { iban : string;
    own_account : string;
    language : string;
    file_encoding : string;
    payee_patterns : list PayeePattern;
    _translation_strings : dict string }.

(** The state of the two nested loops of [__init__]. *)
Definition init_state : Type := (list string * list PayeePattern)%type.

(** The inner loop, over the patterns of one account.  [assert] is taken
    as the interpreter runs it by default, without [-O]. *)
Fixpoint init_patterns (acct : string) (patterns : list string) (st : init_state)
  : result init_state :=
  match patterns with
  | [] => ret st
  | pat :: rest =>
      let (seen_patterns, pats) := st in
      if existsb (String.eqb pat) seen_patterns then
        raise (AssertionError (pat ++ " defined in multiple accounts"))
      else
        r <- Re.compile pat ;;
        init_patterns acct rest
          (str_set_add pat seen_patterns,
           set_add {| regex := r; account := acct |} pats)
  end.

(** The outer loop, over [account_patterns.items()]. *)
Fixpoint init_accounts (items : dict (list string)) (st : init_state)
  : result init_state :=
  match items with
  | [] => ret st
  | (acct, patterns) :: rest =>
      st' <- init_patterns acct patterns st ;;
      init_accounts rest st'
  end.

(** [N26Importer.__init__]. *)
Definition init (iban account language file_encoding : string)
    (account_patterns : dict (list string)) : result N26Importer :=
  if negb (_is_language_supported language) then
    raise (InvalidFormatError ("Language " ++ language ++ " is not supported (yet)"))
  else
    ts <- _translation_strings_for language ;;
    st <- init_accounts account_patterns ([], []) ;;
    ret {| iban := iban;
           own_account := account;
           language := language;
           file_encoding := file_encoding;
           payee_patterns := snd st;
           _translation_strings := ts |}.

Definition _translate (self : N26Importer) (key : string) : result string :=
  dict_item key (_translation_strings self).

(** A library call that wants a [str] raises [TypeError] on [None]. *)
Definition on_str {A} (f : string -> result A) (v : option string) : result A :=
  match v with
  | Some s => f s
  | None => raise TypeError
  end.

Definition _parse_date (self : N26Importer) (entry : Csv.row) : result Datetime.date :=
  k <- _translate self "date" ;;
  v <- dict_item k entry ;;
  on_str Datetime.strptime_ymd v.

(** The file object handed to the importer: only its name is used. *)
Record file : Type := { name : string }.

Definition identify (self : N26Importer) (fs : TextIO.filesystem) (file_ : file)
  : result bool :=
  match fs (name file_) (file_encoding self) with
  | TextIO.Raises e => if is_ValueError e then ret false else raise e
  | TextIO.Decoded text =>
      let line := PyStr.strip PyStr.is_space
                    (TextIO.readline (TextIO.universal_newlines text)) in
      is_valid_header (language self) line
  end.

(** Opening the file again and handing its lines to [csv.DictReader]. *)
Definition open_rows (self : N26Importer) (fs : TextIO.filesystem) (file_ : file)
  : result (list Csv.row) :=
  match fs (name file_) (file_encoding self) with
  | TextIO.Raises e => raise e
  | TextIO.Decoded text =>
      Csv.DictReader (TextIO.readlines (TextIO.universal_newlines text))
  end.

(** The loop of [file_date]; a [date] object is always true, so
    [not date] holds exactly for [None]. *)
Fixpoint file_date_loop (self : N26Importer) (lines : list Csv.row)
    (date : option Datetime.date) : result (option Datetime.date) :=
  match lines with
  | [] => ret date
  | line :: rest =>
      date_tmp <- _parse_date self line ;;
      file_date_loop self rest
        (match date with
         | None => Some date_tmp
         | Some d => if Datetime.date_gtb date_tmp d then Some date_tmp else date
         end)
  end.

Definition file_date (self : N26Importer) (fs : TextIO.filesystem) (file_ : file)
  : result (option Datetime.date) :=
  ok <- identify self fs file_ ;;
  if negb ok then ret None
  else
    rows <- open_rows self fs file_ ;;
    file_date_loop self rows None.

(** The payee classifier: the loop over [self.payee_patterns] in [extract],
    in the order [pats] in which the set is iterated. *)
Fixpoint classify (pats : list PayeePattern) (line : Csv.row) (s_payee : string)
    (match_ : option string) : result (option string) :=
  match pats with
  | [] => ret match_
  | pat :: rest =>
      v <- dict_item s_payee line ;;
      m <- on_str (fun text => ret (Re.match_ (regex pat) text)) v ;;
      classify rest line s_payee (if m then Some (account pat) else match_)
  end.

(** [if match:] holds for an account that is neither [None] nor empty. *)
Definition truthy_account (match_ : option string) : bool :=
  match match_ with
  | Some a => PyStr.truthy a
  | None => false
  end.

(** The body of the loop of [extract]: one row to one transaction. *)
Definition extract_row (self : N26Importer) (pats : list PayeePattern)
    (file_ : file) (s_amount_eur s_payee s_payment_reference : string)
    (index : nat) (line : Csv.row) : result Transaction :=
  let meta := {| filename := name file_; lineno := index |} in
  v <- dict_item s_amount_eur line ;;
  amount <- on_str PyDecimal.of_string v ;;
  let postings :=
    [ {| posting_account := own_account self;
         units := Some {| number := amount; currency := "EUR" |} |} ] in
  match_ <- classify pats line s_payee None ;;
  let postings :=
    match match_ with
    | Some a =>
        if PyStr.truthy a
        then postings ++ [ {| posting_account := a; units := None |} ]
        else postings
    | None => postings
    end in
  d <- _parse_date self line ;;
  p <- dict_item s_payee line ;;
  n <- dict_item s_payment_reference line ;;
  ret {| meta := meta; date := d; flag := FLAG; payee := p; narration := n;
         postings := postings |}.

Fixpoint extract_loop (self : N26Importer) (pats : list PayeePattern)
    (file_ : file) (s_amount_eur s_payee s_payment_reference : string)
    (index : nat) (lines : list Csv.row) : result (list Transaction) :=
  match lines with
  | [] => ret []
  | line :: rest =>
      t <- extract_row self pats file_ s_amount_eur s_payee s_payment_reference
             index line ;;
      ts <- extract_loop self pats file_ s_amount_eur s_payee s_payment_reference
              (S index) rest ;;
      ret (t :: ts)
  end.

(** [N26Importer.extract].  [self.payee_patterns] is a Python [set]: the
    order in which a run iterates over it depends on the hashes of its
    elements, which for strings change from one interpreter process to the
    next.  [iteration_order] is that order for the run at hand; it lists
    every element of the set once. *)
Definition extract (iteration_order : list PayeePattern -> list PayeePattern)
    (self : N26Importer) (fs : TextIO.filesystem) (file_ : file)
  : result (list Transaction) :=
  ok <- identify self fs file_ ;;
  if negb ok then ret []
  else
    s_amount_eur <- _translate self "amount_eur" ;;
    s_payee <- _translate self "payee" ;;
    s_payment_reference <- _translate self "payment_reference" ;;
    rows <- open_rows self fs file_ ;;
    extract_loop self (iteration_order (payee_patterns self)) file_
      s_amount_eur s_payee s_payment_reference 0 rows.

(** ** Vocabulary of the properties *)

(** The schema of a language, its full list of labels, and the list
    without the label of the [category] column. *)
Definition schema (L : string) : dict field :=
  match dict_get L HEADER_FIELDS with
  | Some fields => fields
  | None => []
  end.

Definition full_labels (L : string) : list string :=
  map (fun kv => label (snd kv)) (schema L).

Definition short_labels (L : string) : list string :=
  map (fun kv => label (snd kv))
      (filter (fun kv => negb (String.eqb (fst kv) "category")) (schema L)).

(** A token as it stands or wrapped in double quotes. *)
Definition wrap (quoted : bool) (tok : string) : string :=
  if quoted then String PyStr.dquote (tok ++ String PyStr.dquote "") else tok.

Fixpoint quote_tokens (quoting : list bool) (toks : list string) : list string :=
  match toks with
  | [] => []
  | t :: ts => wrap (hd false quoting) t :: quote_tokens (tl quoting) ts
  end.

(** The header line made of the given labels, the i-th one wrapped in
    double quotes when the i-th entry of [quoting] says so. *)
Definition header_line (quoting : list bool) (labels : list string) : string :=
  PyStr.join PyStr.comma (quote_tokens quoting labels).

Definition no_comma (s : string) : bool :=
  PyStr.all_chars (fun c => negb (Ascii.eqb c PyStr.comma)) s.

(** A label that survives being written into a header line and read back:
    it has no comma, and stripping double quotes gives it back whether it
    was wrapped or not. *)
Definition plain_label (t : string) : bool :=
  no_comma t
  && String.eqb (PyStr.strip PyStr.is_dquote (wrap true t)) t
  && String.eqb (PyStr.strip PyStr.is_dquote t) t.


(** The account the classifier resolves for a payee text: the loop of
    [extract] over the rules, on a payee that is a string. *)
Fixpoint resolve (pats : list PayeePattern) (text : string) (match_ : option string)
  : option string :=
  match pats with
  | [] => match_
  | pat :: rest =>
      resolve rest text
        (if Re.match_ (regex pat) text then Some (account pat) else match_)
  end.

(** The first posting of every transaction: the importer's own account
    with an amount in EUR. *)
Definition own_posting (self : N26Importer) (amount : PyDecimal.Decimal) : Posting :=
  {| posting_account := own_account self;
     units := Some {| number := amount; currency := "EUR" |} |}.

(** A posting to a counter-account, without an amount. *)
Definition counter_posting (acct : string) : Posting :=
  {| posting_account := acct; units := None |}.

(** ** A sample configuration and sample files *)

Definition sample_patterns : dict (list string) :=
  [ ("Expenses:Shop", ["^acme"]); ("Income:Misc", ["a.*e"; "foo"]) ].

Definition empty_importer : N26Importer :=
  {| iban := ""; own_account := ""; language := ""; file_encoding := "";
     payee_patterns := []; _translation_strings := [] |}.

(** The importer that [init] returns for the sample configuration. *)
Definition sample_importer : N26Importer :=
  Eval vm_compute in
    match init "DE00" "Assets:N26" "en" "utf-8" sample_patterns with
    | inr self => self
    | inl _ => empty_importer
    end.

Definition sample_header : string := header_line [] (full_labels "en").

Definition line_feed : string := String PyStr.newline "".

(** Two rows; the second has a payee in quotes and a date without leading
    zeros. *)
Definition sample_text : string :=
  sample_header ++ line_feed
  ++ "2021-03-05,Acme Corp,DE12,MasterCard Payment,ref 1,Shopping,-12.34,,," ++ line_feed
  ++ "2021-3-7," ++ wrap true "Bakery, Main St" ++ ",DE34,Income,ref 2,Food,5,,," ++ line_feed.

(** A file whose only data row has a comma as decimal separator. *)
Definition comma_amount_text : string :=
  sample_header ++ line_feed
  ++ "2021-03-05,Acme Corp,DE12,MasterCard Payment,ref 1,Shopping," ++ wrap true "12,34" ++ ",,," ++ line_feed.

(** A file with a header and no data row. *)
Definition header_only_text : string := sample_header ++ line_feed.

Definition sample_fs : TextIO.filesystem :=
  fun name _ =>
    if String.eqb name "n26.csv" then TextIO.Decoded sample_text
    else if String.eqb name "comma.csv" then TextIO.Decoded comma_amount_text
    else if String.eqb name "empty.csv" then TextIO.Decoded header_only_text
    else if String.eqb name "notes.txt" then TextIO.Decoded "dear diary"
    else if String.eqb name "scan.pdf" then TextIO.Raises UnicodeDecodeError
    else TextIO.Raises OSError.

Definition sample_row : Csv.row :=
  Csv.make_row (full_labels "en")
    ["2021-03-05"; "Acme Corp"; "DE12"; "MasterCard Payment"; "ref 1"; "Shopping";
     "-12.34"; ""; ""; ""].

(** ** Rows of a file *)

(** The value a row holds under the label of a field key. *)
Definition row_field (self : N26Importer) (key : string) (line : Csv.row)
  : option (option string) :=
  match dict_get key (_translation_strings self) with
  | Some lbl => dict_get lbl line
  | None => None
  end.

Definition row_text (self : N26Importer) (key : string) (line : Csv.row)
  : option string :=
  match row_field self key line with
  | Some (Some s) => Some s
  | _ => None
  end.

(** The date and the amount of a row, when the row has them and they
    parse. *)
Definition row_date (self : N26Importer) (line : Csv.row) : option Datetime.date :=
  match row_text self "date" line with
  | Some s =>
      match Datetime.strptime_ymd s with
      | inr d => Some d
      | inl _ => None
      end
  | None => None
  end.


Definition is_some {A} (o : option A) : bool :=
  match o with
  | Some _ => true
  | None => false
  end.


Definition row_dates (self : N26Importer) (rows : list Csv.row) : list Datetime.date :=
  flat_map (fun line => match row_date self line with
                        | Some d => [d]
                        | None => []
                        end) rows.

(** [m] is the latest of the dates: none when there is no date, otherwise
    one of them that no other one exceeds. *)
Definition is_latest (dates : list Datetime.date) (m : option Datetime.date) : Prop :=
  match m with
  | None => dates = []
  | Some d => In d dates /\ forall d', In d' dates -> Datetime.date_gtb d' d = false
  end.

(** The first line of a text as [identify] hands it to the header
    matcher. *)
Definition first_line (text : string) : string :=
  PyStr.strip PyStr.is_space (TextIO.readline (TextIO.universal_newlines text)).

(** The rows [csv.DictReader] yields over a text. *)
Definition rows_of (text : string) : result (list Csv.row) :=
  Csv.DictReader (TextIO.readlines (TextIO.universal_newlines text)).

Definition sample_rows : list Csv.row :=
  Eval vm_compute in
    match rows_of sample_text with
    | inr rows => rows
    | inl _ => []
    end.

Definition sample_file : file := {| name := "n26.csv" |}.

Definition sample_transactions : list Transaction :=
  Eval vm_compute in
    match extract (fun l => l) sample_importer sample_fs sample_file with
    | inr txns => txns
    | inl _ => []
    end.

Definition blank_transaction : Transaction :=
  {| meta := {| filename := ""; lineno := 0 |};
     date := {| Datetime.year := 1; Datetime.month := 1; Datetime.day := 1 |};
     flag := ""; payee := None; narration := None; postings := [] |}.

(** The transaction of the first row of the sample file. *)
Definition sample_first : Transaction :=
  Eval vm_compute in nth 0 sample_transactions blank_transaction.

(** A file system in which no file decodes. *)
Definition undecodable_fs : TextIO.filesystem :=
  fun _ _ => TextIO.Raises UnicodeDecodeError.

(** The exact format YYYY-MM-DD: four digits, a hyphen, two digits, a
    hyphen, two digits, and nothing else. *)
Definition exact_iso_format (s : string) : bool :=
  match list_ascii_of_string s with
  | [y1; y2; y3; y4; h1; m1; m2; h2; d1; d2] =>
      PyStr.is_digit y1 && PyStr.is_digit y2 && PyStr.is_digit y3 && PyStr.is_digit y4
      && Ascii.eqb h1 "-" && PyStr.is_digit m1 && PyStr.is_digit m2
      && Ascii.eqb h2 "-" && PyStr.is_digit d1 && PyStr.is_digit d2
  | _ => false
  end.

(** [Decimal(line[s_amount_eur])], as [extract] evaluates it on a row. *)
Definition parse_amount (self : N26Importer) (line : Csv.row)
  : result PyDecimal.Decimal :=
  k <- _translate self "amount_eur" ;;
  v <- dict_item k line ;;
  on_str PyDecimal.of_string v.

Definition comma_rows : list Csv.row :=
  Eval vm_compute in
    match rows_of comma_amount_text with
    | inr rows => rows
    | inl _ => []
    end.






(** ** The remaining methods of the importer *)

(** [N26Importer.name]; [class_name] is [self.__class__.__name__], which is
    [N26Importer] unless the importer is subclassed. *)
Definition importer_name (class_name : string) : string := "N26 " ++ class_name.

(** [N26Importer.file_account]: the file is not looked at. *)
Definition file_account (self : N26Importer) (file_ : file) : string :=
  own_account self.

(** ** Vocabulary of the further properties *)

(** The strings of a list are pairwise different. *)
Fixpoint distinct (l : list string) : bool :=
  match l with
  | [] => true
  | x :: rest => negb (existsb (String.eqb x) rest) && distinct rest
  end.

(** The field keys [extract] and [file_date] translate. *)
Definition required_keys : list string :=
  ["date"; "payee"; "payment_reference"; "amount_eur"].





(** A day of the calendar [datetime.date] knows. *)
Definition valid_date (d : Datetime.date) : Prop :=
  (1 <= Datetime.year d <= 9999
   /\ 1 <= Datetime.month d <= 12
   /\ 1 <= Datetime.day d <= Datetime.days_in_month (Datetime.year d) (Datetime.month d))%N.

(** The amount of the first posting of a transaction. *)
Definition first_amount (t : Transaction) : option Amount :=
  match postings t with
  | p :: _ => units p
  | [] => None
  end.

(** A text without line feed and carriage return. *)
Definition no_line_break (s : string) : bool :=
  PyStr.all_chars (fun c => negb (Csv.is_eol_char c)) s.


(** The character of a decimal digit. *)
Definition digit_char (n : N) : ascii := ascii_of_N (48 + n).

(** [d.isoformat()]: the year in four digits, the month and the day in two,
    with hyphens between them. *)
Definition isoformat (d : Datetime.date) : string :=
  let y := Datetime.year d in
  let m := Datetime.month d in
  let dd := Datetime.day d in
  string_of_list_ascii
    [ digit_char (y / 1000); digit_char ((y / 100) mod 10);
      digit_char ((y / 10) mod 10); digit_char (y mod 10); "-"%char;
      digit_char (m / 10); digit_char (m mod 10); "-"%char;
      digit_char (dd / 10); digit_char (dd mod 10) ]%N.

(** The checks behind the round trip of a date, for one year and for one
    month and day. *)
Definition year_reads_back (y : nat) : bool :=
  let n := N.of_nat y in
  let cs := [ digit_char (n / 1000); digit_char ((n / 100) mod 10);
              digit_char ((n / 10) mod 10); digit_char (n mod 10) ]%N in
  forallb PyStr.is_digit cs
  && N.eqb (PyStr.int_of_digits (string_of_list_ascii cs)) n.

Definition month_day_read_back (m dd : nat) : bool :=
  let mn := N.of_nat m in
  let dn := N.of_nat dd in
  match Datetime.first_month_day
          (Datetime.month_matches
             [ digit_char (mn / 10); digit_char (mn mod 10); "-"%char;
               digit_char (dn / 10); digit_char (dn mod 10) ]%N) with
  | Some (m', d', []) => N.eqb m' mn && N.eqb d' dn
  | _ => false
  end.

(** ** Writing CSV files *)

(** A field that can be written as it stands (without comma, double quote
    and line break) or, in double quotes, with commas in it. *)
Definition field_ok (quoted : bool) (f : string) : bool :=
  PyStr.all_chars
    (fun c => negb (PyStr.is_dquote c) && negb (Csv.is_eol_char c)
              && (quoted || negb (Ascii.eqb c PyStr.comma))) f.

Fixpoint fields_ok (quoting : list bool) (fields : list string) : bool :=
  match fields with
  | [] => true
  | f :: fs => field_ok (hd false quoting) f && fields_ok (tl quoting) fs
  end.

(** A record that can be written on a line: it has a field, its fields
    can be written, and the line is not blank. *)
Definition record_ok (record : list bool * list string) : bool :=
  fields_ok (fst record) (snd record)
  && negb (String.eqb (header_line (fst record) (snd record)) "").

(** The line of a record, with its line feed, and the text of a file made
    of such lines. *)
Definition csv_line (record : list bool * list string) : string :=
  header_line (fst record) (snd record) ++ line_feed.

Fixpoint csv_file (records : list (list bool * list string)) : string :=
  match records with
  | [] => ""
  | r :: rest => csv_line r ++ csv_file rest
  end.

(** Feeding characters to the parser of the reader, without the
    end-of-line mark. *)
Fixpoint feed (p : Csv.parser) (s : string) : result Csv.parser :=
  match s with
  | EmptyString => ret p
  | String c s' =>
      p' <- Csv.parse_process_char p (Some c) ;;
      feed p' s'
  end.

(** The position of a label in a list of labels. *)
Fixpoint index_of (lbl : string) (labels : list string) : option nat :=
  match labels with
  | [] => None
  | l :: rest =>
      if String.eqb l lbl then Some 0
      else match index_of lbl rest with
           | Some i => Some (S i)
           | None => None
           end
  end.

(** The value a record holds in the column of a field key, in a file whose
    header has the given labels. *)
Definition written_field (self : N26Importer) (labels : list string)
    (key : string) (fields : list string) : option string :=
  match dict_get key (_translation_strings self) with
  | Some lbl =>
      match index_of lbl labels with
      | Some i => nth_error fields i
      | None => None
      end
  | None => None
  end.




(** A text that white-space stripping leaves alone at its two ends. *)
Definition starts_ok (s : string) : bool :=
  match s with
  | String c _ => negb (PyStr.is_space c)
  | EmptyString => false
  end.

Fixpoint ends_ok (s : string) : bool :=
  match s with
  | EmptyString => false
  | String c EmptyString => negb (PyStr.is_space c)
  | String _ s' => ends_ok s'
  end.

(** A label that can head a column of a written file. *)
Definition header_label_ok (l : string) : bool :=
  field_ok false l && plain_label l && starts_ok l && ends_ok l.



(** A written file whose second record stops after the payee. *)
Definition short_record_data : list (list bool * list string) :=
  [ ([], ["2021-03-05"; "Acme Corp"; "DE12"; "MasterCard Payment"; "ref 1";
          "Shopping"; "-12.34"; ""; ""; ""]);
    ([], ["2021-03-06"; "Bakery"]) ].

Definition short_record_fs : TextIO.filesystem :=
  fun _ _ => TextIO.Decoded (csv_file (([], full_labels "en") :: short_record_data)).

(** The importer constructed without payee patterns, the default. *)
Definition plain_importer : N26Importer :=
  Eval vm_compute in
    match init "DE00" "Assets:N26" "en" "utf-8" [] with
    | inr self => self
    | inl _ => empty_importer
    end.

Definition plain_transactions : list Transaction :=
  Eval vm_compute in
    match extract (fun l => l) plain_importer sample_fs sample_file with
    | inr txns => txns
    | inl _ => []
    end.

(** * Properties *)

Unset Implicit Arguments.

(** ** Splitting and joining *)

Lemma split_not_nil sep s : PyStr.split sep s <> [].
Proof.
  destruct s as [|c s]; simpl; [discriminate|].
  destruct (Ascii.eqb c sep); [discriminate|].
  destruct (PyStr.split sep s); discriminate.
Qed.

Lemma split_no_sep s :
  no_comma s = true -> PyStr.split PyStr.comma s = [s].
Proof.
  induction s as [|c s IH]; simpl; intros H; [reflexivity|].
  apply andb_prop in H as [Hc Hs].
  apply negb_true_iff in Hc. rewrite Hc, (IH Hs). reflexivity.
Qed.

Lemma split_app_sep t rest :
  no_comma t = true ->
  PyStr.split PyStr.comma (t ++ String PyStr.comma rest)
  = t :: PyStr.split PyStr.comma rest.
Proof.
  induction t as [|c t IH]; simpl; intros H.
  - reflexivity.
  - apply andb_prop in H as [Hc Ht].
    apply negb_true_iff in Hc. rewrite Hc, (IH Ht). reflexivity.
Qed.

Lemma split_join toks :
  toks <> [] -> forallb no_comma toks = true ->
  PyStr.split PyStr.comma (PyStr.join PyStr.comma toks) = toks.
Proof.
  induction toks as [|t ts IH]; intros Hne H; [congruence|].
  simpl in H. apply andb_prop in H as [Ht Hts].
  destruct ts as [|t' ts].
  - simpl. now apply split_no_sep.
  - change (PyStr.join PyStr.comma (t :: t' :: ts))
      with (t ++ String PyStr.comma (PyStr.join PyStr.comma (t' :: ts)))%string.
    rewrite split_app_sep by assumption.
    rewrite IH; [reflexivity|discriminate|assumption].
Qed.

Lemma no_comma_wrap b t : no_comma t = true -> no_comma (wrap b t) = true.
Proof.
  destruct b; simpl; [|tauto]. intros H.
  unfold no_comma in *. simpl.
  induction t as [|c t IH]; simpl in *; [reflexivity|].
  apply andb_prop in H as [Hc Ht]. rewrite Hc. simpl. now apply IH.
Qed.

Lemma strip_wrap b t :
  plain_label t = true -> PyStr.strip PyStr.is_dquote (wrap b t) = t.
Proof.
  unfold plain_label. intros H.
  apply andb_prop in H as [H H3]. apply andb_prop in H as [_ H2].
  destruct b; simpl wrap; now apply String.eqb_eq.
Qed.

Lemma quote_tokens_not_nil qs toks : toks <> [] -> quote_tokens qs toks <> [].
Proof. destruct toks; simpl; [congruence|discriminate]. Qed.

(** Reading back a header line written from plain labels gives the
    labels, whatever the quoting. *)
Lemma header_tokens_header_line qs labels :
  labels <> [] -> forallb plain_label labels = true ->
  header_tokens (header_line qs labels) = labels.
Proof.
  intros Hne H. unfold header_tokens, header_line.
  rewrite split_join.
  - clear Hne. revert qs. induction labels as [|t ts IH]; intros qs; [reflexivity|].
    simpl in H. apply andb_prop in H as [Ht Hts].
    simpl. rewrite strip_wrap by assumption. now rewrite IH.
  - now apply quote_tokens_not_nil.
  - clear Hne. revert qs. induction labels as [|t ts IH]; intros qs; [reflexivity|].
    simpl in H. apply andb_prop in H as [Ht Hts].
    simpl. rewrite IH by assumption. rewrite andb_true_r.
    apply no_comma_wrap. unfold plain_label in Ht.
    apply andb_prop in Ht as [Ht _]. now apply andb_prop in Ht as [Ht _].
Qed.

Lemma all_equal_refl l : all_equal (combine l l) = true.
Proof.
  induction l as [|x l IH]; simpl; [reflexivity|].
  now rewrite String.eqb_refl.
Qed.

(** A position where the two lists differ makes the comparison fail. *)
Lemma all_equal_mismatch expected actual i e a :
  nth_error expected i = Some e -> nth_error actual i = Some a -> e <> a ->
  all_equal (combine expected actual) = false.
Proof.
  revert actual i. induction expected as [|x xs IH]; intros [|y ys] [|i] He Ha Hne;
    simpl in *; try discriminate.
  - injection He as ->. injection Ha as ->.
    apply String.eqb_neq in Hne. now rewrite Hne.
  - destruct (String.eqb x y); simpl; [|reflexivity]. eauto.
Qed.

(** ** The header matcher *)

Lemma supported_cases L :
  _is_language_supported L = true -> L = "en" \/ L = "de" \/ L = "fr".
Proof.
  unfold _is_language_supported, HEADER_FIELDS. cbn [dict_get].
  destruct (String.eqb "en" L) eqn:E1; [apply String.eqb_eq in E1; auto|].
  destruct (String.eqb "de" L) eqn:E2; [apply String.eqb_eq in E2; auto|].
  destruct (String.eqb "fr" L) eqn:E3; [apply String.eqb_eq in E3; auto|].
  intros H. discriminate H.
Qed.

(** What [_header_values_for] returns for a supported language. *)
Lemma header_values_supported L :
  _is_language_supported L = true ->
  _header_values_for L true = inr (full_labels L)
  /\ _header_values_for L false = inr (short_labels L)
  /\ List.length (full_labels L) = 10
  /\ List.length (short_labels L) = 9
  /\ forallb plain_label (full_labels L) = true
  /\ forallb plain_label (short_labels L) = true.
Proof.
  intros H. destruct (supported_cases L H) as [-> | [-> | ->]];
    vm_compute; repeat split; reflexivity.
Qed.

(** [is_valid_header] in terms of the two label lists. *)
Lemma is_valid_header_eq L line :
  _is_language_supported L = true ->
  is_valid_header L line = inr
    (if Nat.eqb (List.length (full_labels L)) (List.length (header_tokens line))
     then all_equal (combine (full_labels L) (header_tokens line))
     else if Nat.eqb (List.length (short_labels L)) (List.length (header_tokens line))
     then all_equal (combine (short_labels L) (header_tokens line))
     else false).
Proof.
  intros H. destruct (header_values_supported L H) as (Hf & Hs & _).
  unfold is_valid_header. rewrite Hf. simpl.
  destruct (Nat.eqb (List.length (full_labels L)) (List.length (header_tokens line)));
    simpl; [reflexivity|].
  rewrite Hs. simpl.
  destruct (Nat.eqb (List.length (short_labels L)) (List.length (header_tokens line)));
    reflexivity.
Qed.

Lemma labels_not_nil L :
  _is_language_supported L = true -> full_labels L <> [] /\ short_labels L <> [].
Proof.
  intros H. destruct (header_values_supported L H) as (_ & _ & Hf & Hs & _).
  split; intros E; rewrite E in *; discriminate.
Qed.

(** C1. For a supported language, [is_valid_header] accepts the full list
    of labels and the list without the category label, each label wrapped
    in double quotes or not; it rejects every line whose number of
    comma-separated tokens is neither of the two lengths, and every line
    with a token that differs from the label expected at its position. *)
Theorem is_valid_header_spec (L : string) :
  _is_language_supported L = true ->
  (forall quoting,
      is_valid_header L (header_line quoting (full_labels L)) = inr true)
  /\ (forall quoting,
      is_valid_header L (header_line quoting (short_labels L)) = inr true)
  /\ (forall line,
      List.length (PyStr.split PyStr.comma line) <> List.length (full_labels L) ->
      List.length (PyStr.split PyStr.comma line) <> List.length (short_labels L) ->
      is_valid_header L line = inr false)
  /\ (forall line expected i e a,
      expected = full_labels L \/ expected = short_labels L ->
      List.length (header_tokens line) = List.length expected ->
      nth_error expected i = Some e ->
      nth_error (header_tokens line) i = Some a ->
      e <> a ->
      is_valid_header L line = inr false).
Proof.
  intros H.
  destruct (header_values_supported L H) as (_ & _ & Lf & Ls & Pf & Ps).
  destruct (labels_not_nil L H) as [Nf Ns].
  repeat split.
  - intros qs. rewrite is_valid_header_eq by assumption.
    rewrite header_tokens_header_line by assumption.
    now rewrite Nat.eqb_refl, all_equal_refl.
  - intros qs. rewrite is_valid_header_eq by assumption.
    rewrite header_tokens_header_line by assumption.
    rewrite Lf, Ls. simpl. now rewrite all_equal_refl.
  - intros line Hf Hs. rewrite is_valid_header_eq by assumption.
    unfold header_tokens. rewrite length_map.
    destruct (Nat.eqb_spec (List.length (full_labels L))
                (List.length (PyStr.split PyStr.comma line))); [congruence|].
    destruct (Nat.eqb_spec (List.length (short_labels L))
                (List.length (PyStr.split PyStr.comma line))); [congruence|].
    reflexivity.
  - intros line expected i e a Hexp Hlen He Ha Hne.
    rewrite is_valid_header_eq by assumption.
    destruct Hexp as [-> | ->].
    + rewrite Hlen, Nat.eqb_refl.
      f_equal. eapply all_equal_mismatch; eassumption.
    + rewrite Hlen, Ls, Lf. simpl.
      f_equal. eapply all_equal_mismatch; eassumption.
Qed.

Lemma is_valid_header_spec_witness :
  is_valid_header "de" (header_line [false; true; true] (full_labels "de")) = inr true
  /\ is_valid_header "de" (header_line [true] (short_labels "de")) = inr true
  /\ is_valid_header "de" "Datum,Betrag (EUR)" = inr false
  /\ is_valid_header "de" (header_line [] ("Date" :: tl (full_labels "de"))) = inr false.
Proof.
  destruct (is_valid_header_spec "de" eq_refl) as (Hfull & Hshort & Hcount & Htoken).
  split; [apply Hfull | split; [apply Hshort | split]].
  - apply Hcount; vm_compute; discriminate.
  - apply (Htoken _ (full_labels "de") 0 "Datum" "Date");
      [now left | reflexivity | reflexivity | reflexivity | discriminate].
Defined.

(** C8. The importer of one language rejects the full header line of every
    other supported language, although the schemas have the same number of
    columns and the English and the French one start with the same label. *)
Theorem other_language_header_rejected (L M : string) :
  _is_language_supported L = true ->
  _is_language_supported M = true ->
  L <> M ->
  (forall quoting,
      is_valid_header L (header_line quoting (full_labels M)) = inr false)
  /\ List.length (full_labels L) = List.length (full_labels M)
  /\ nth_error (full_labels "en") 0 = Some "Date"
  /\ nth_error (full_labels "fr") 0 = Some "Date".
Proof.
  intros HL HM Hne.
  destruct (header_values_supported M HM) as (_ & _ & LM & _ & PM & _).
  destruct (header_values_supported L HL) as (_ & _ & LL & _).
  destruct (labels_not_nil M HM) as [NM _].
  repeat split; [|congruence].
  intros qs. rewrite is_valid_header_eq by assumption.
  rewrite header_tokens_header_line by assumption.
  rewrite LL, LM. simpl. f_equal.
  destruct (supported_cases L HL) as [-> | [-> | ->]];
    destruct (supported_cases M HM) as [-> | [-> | ->]];
    try congruence; reflexivity.
Qed.

Lemma other_language_header_rejected_witness :
  is_valid_header "en" (header_line [] (full_labels "fr")) = inr false.
Proof.
  apply (other_language_header_rejected "en" "fr");
    [reflexivity | reflexivity | discriminate].
Defined.

(** ** The error monad *)

Lemma bind_inr {A B} (m : result A) (k : A -> result B) b :
  bind m k = inr b <-> exists a, m = inr a /\ k a = inr b.
Proof.
  destruct m as [e|a]; simpl; split.
  - discriminate.
  - intros (a & H & _). discriminate.
  - eauto.
  - intros (a' & H & Hk). now injection H as ->.
Qed.

(** Splits a hypothesis [bind m k = inr b] into its two steps. *)
Ltac bind_inv H :=
  let a := fresh "a" in
  let Ha := fresh "Ha" in
  apply bind_inr in H; destruct H as (a & Ha & H).

(** ** The regular expression matcher *)








(** ** The payee classifier *)

Lemma classify_resolve pats line s_payee text : forall m,
  dict_get s_payee line = Some (Some text) ->
  classify pats line s_payee m = inr (resolve pats text m).
Proof.
  induction pats as [|pat rest IH]; intros m H; simpl; [reflexivity|].
  unfold dict_item. rewrite H. simpl. now apply IH.
Qed.




(** The postings of the transaction made from one row. *)
Lemma extract_row_postings self pats file_ s_amount_eur s_payee s_ref index line t :
  extract_row self pats file_ s_amount_eur s_payee s_ref index line = inr t ->
  exists amount match_,
    classify pats line s_payee None = inr match_
    /\ dict_get s_payee line = Some (payee t)
    /\ postings t =
       own_posting self amount ::
       (if truthy_account match_
        then match match_ with Some a => [counter_posting a] | None => [] end
        else []).
Proof.
  unfold extract_row. intros H.
  bind_inv H. bind_inv H. bind_inv H. bind_inv H. bind_inv H. bind_inv H.
  injection H as <-. simpl.
  exists a0, a1. split; [assumption|]. split.
  - unfold dict_item in Ha3. destruct (dict_get s_payee line); [|discriminate].
    now injection Ha3 as ->.
  - destruct a1 as [acct|]; [|reflexivity].
    simpl. destruct (PyStr.truthy acct); reflexivity.
Qed.



Lemma sample_importer_init :
  init "DE00" "Assets:N26" "en" "utf-8" sample_patterns = inr sample_importer.
Proof. reflexivity. Qed.


(** ** The transactions of [extract] *)

Lemma classify_some pats line s_payee a :
  classify pats line s_payee None = inr (Some a) ->
  exists text,
    dict_get s_payee line = Some (Some text)
    /\ resolve pats text None = Some a.
Proof.
  destruct pats as [|p rest]; [discriminate|].
  destruct (dict_get s_payee line) as [[text|]|] eqn:E.
  - erewrite classify_resolve by eassumption.
    intros H. injection H as H. eauto.
  - simpl. unfold dict_item. rewrite E. discriminate.
  - simpl. unfold dict_item. rewrite E. discriminate.
Qed.

(** Every transaction of the loop comes from a row of the file. *)
Lemma extract_loop_in self pats file_ k1 k2 k3 rows : forall index txns t,
  extract_loop self pats file_ k1 k2 k3 index rows = inr txns ->
  In t txns ->
  exists i line, In line rows /\ extract_row self pats file_ k1 k2 k3 i line = inr t.
Proof.
  induction rows as [|line rest IH]; simpl; intros index txns t H Hin.
  - injection H as <-. destruct Hin.
  - bind_inv H. bind_inv H. injection H as <-.
    destruct Hin as [<-|Hin].
    + exists index, line. auto.
    + destruct (IH _ _ _ Ha0 Hin) as (i & l & Hl & Hr). exists i, l. auto.
Qed.

Lemma extract_inv order self fs file_ txns t :
  extract order self fs file_ = inr txns -> In t txns ->
  exists k1 k2 k3 i line,
    extract_row self (order (payee_patterns self)) file_ k1 k2 k3 i line = inr t.
Proof.
  unfold extract. intros H Hin. bind_inv H.
  destruct a; simpl in H; [|injection H as <-; destruct Hin].
  bind_inv H. bind_inv H. bind_inv H. bind_inv H.
  destruct (@extract_loop_in _ _ _ _ _ _ _ _ _ _ H Hin) as (i & line & _ & Hr).
  eauto 6.
Qed.

(** C3. In every transaction that [extract] returns, the first posting is
    on the importer's own account with an amount in EUR; a second posting,
    when there is one, has no amount and is on the account the classifier
    resolves for the payee; there are one or two postings. *)
Theorem extract_postings_invariant order self fs file_ txns t :
  extract order self fs file_ = inr txns ->
  In t txns ->
  exists amount,
    (postings t = [own_posting self amount]
     \/ exists acct text,
          postings t = [own_posting self amount; counter_posting acct]
          /\ payee t = Some text
          /\ resolve (order (payee_patterns self)) text None = Some acct)
    /\ 1 <= List.length (postings t) <= 2.
Proof.
  intros H Hin.
  destruct (@extract_inv _ _ _ _ _ _ H Hin) as (k1 & k2 & k3 & i & line & Hr).
  apply extract_row_postings in Hr as (amount & m & Hm & Hp & ->).
  exists amount. destruct m as [acct|]; simpl.
  - destruct (PyStr.truthy acct); simpl.
    + split; [right|lia].
      apply classify_some in Hm as (text & Ht & Hres).
      exists acct, text. split; [reflexivity|]. split; [congruence|assumption].
    + split; [now left|lia].
  - split; [now left|lia].
Qed.

Lemma extract_postings_invariant_witness :
  exists amount,
    (postings sample_first = [own_posting sample_importer amount]
     \/ exists acct text,
          postings sample_first = [own_posting sample_importer amount; counter_posting acct]
          /\ payee sample_first = Some text
          /\ resolve (payee_patterns sample_importer) text None = Some acct)
    /\ 1 <= List.length (postings sample_first) <= 2.
Proof.
  apply (extract_postings_invariant (fun l => l) sample_importer sample_fs
           sample_file sample_transactions sample_first).
  - vm_compute. reflexivity.
  - left. reflexivity.
Defined.

(** ** Construction *)

Lemma raises_bind {A B} (m : result A) (k : A -> result B) :
  raises m -> raises (bind m k).
Proof. intros [e ->]. now exists e. Qed.

Lemma raises_bind_r {A B} (m : result A) (k : A -> result B) :
  (forall a, m = inr a -> raises (k a)) -> raises (bind m k).
Proof.
  intros H. destruct m as [e|a]; simpl; [now exists e|now apply H].
Qed.

Lemma not_raises_inr {A} (a : A) : ~ raises (inr a : result A).
Proof. intros [e H]. discriminate. Qed.

(** What a constructed importer holds. *)
Lemma init_inv ib ac L enc aps self :
  init ib ac L enc aps = inr self ->
  _is_language_supported L = true
  /\ language self = L
  /\ own_account self = ac
  /\ file_encoding self = enc
  /\ _translation_strings_for L = inr (_translation_strings self)
  /\ exists seen, init_accounts aps ([], []) = inr (seen, payee_patterns self).
Proof.
  unfold init. destruct (_is_language_supported L) eqn:S; simpl; [|discriminate].
  intros H. bind_inv H. bind_inv H. injection H as <-. simpl.
  destruct a0 as [seen pats]. repeat split; try assumption. now exists seen.
Qed.



(** ** Dates *)

Ltac date_order :=
  unfold Datetime.date_gtb in *; simpl in *;
  repeat (progress
            (rewrite ?orb_true_iff, ?andb_true_iff, ?orb_false_iff,
               ?andb_false_iff, ?N.ltb_lt, ?N.eqb_eq, ?N.ltb_ge, ?N.eqb_neq in *));
  lia.

Lemma date_gtb_irrefl d : Datetime.date_gtb d d = false.
Proof. destruct d. date_order. Qed.

Lemma date_gtb_trans a b c :
  Datetime.date_gtb a b = false -> Datetime.date_gtb c b = true ->
  Datetime.date_gtb a c = false.
Proof. destruct a, b, c. intros H1 H2. date_order. Qed.

(** ** Well-formed rows *)

Section Rows.
Variable self : N26Importer.
Variables k_date k_payee k_ref k_amount : string.
Hypothesis Kd : dict_get "date" (_translation_strings self) = Some k_date.
Hypothesis Kp : dict_get "payee" (_translation_strings self) = Some k_payee.
Hypothesis Kr : dict_get "payment_reference" (_translation_strings self) = Some k_ref.
Hypothesis Ka : dict_get "amount_eur" (_translation_strings self) = Some k_amount.





End Rows.

(** ** The reader does not raise on the lines of a text file *)










(** ** Whole files *)

Lemma identify_decoded self fs file_ text :
  fs (name file_) (file_encoding self) = TextIO.Decoded text ->
  identify self fs file_ = is_valid_header (language self) (first_line text).
Proof. unfold identify. now intros ->. Qed.

Lemma open_rows_decoded self fs file_ text :
  fs (name file_) (file_encoding self) = TextIO.Decoded text ->
  open_rows self fs file_ = rows_of text.
Proof. unfold open_rows. now intros ->. Qed.



(** C10. On a file whose header matches and which has no data row,
    [file_date] returns no date, as it does on a file that is not
    identified: the result alone does not tell the two apart. *)
Theorem file_date_header_only self fs file_ :
  identify self fs file_ = inr true ->
  open_rows self fs file_ = inr [] ->
  file_date self fs file_ = inr None
  /\ exists fs' file',
       identify self fs' file' = inr false
       /\ file_date self fs' file' = file_date self fs file_.
Proof.
  intros Hid Hrows.
  assert (E : file_date self fs file_ = inr None).
  { unfold file_date. rewrite Hid. simpl. rewrite Hrows. reflexivity. }
  split; [assumption|].
  exists undecodable_fs, file_. rewrite E. split; reflexivity.
Qed.

Lemma file_date_header_only_witness :
  file_date sample_importer sample_fs {| name := "empty.csv" |} = inr None
  /\ exists fs' file',
       identify sample_importer fs' file' = inr false
       /\ file_date sample_importer fs' file'
          = file_date sample_importer sample_fs {| name := "empty.csv" |}.
Proof.
  apply file_date_header_only; vm_compute; reflexivity.
Defined.

(** ** Failures while opening and reading *)

(** C5 as stated does not hold: the file system of the samples has
    no file of this name, opening it raises [OSError], and [identify] does
    not return false. *)
Lemma identify_missing_file_raises :
  sample_fs "missing.csv" (file_encoding sample_importer) = TextIO.Raises OSError
  /\ identify sample_importer sample_fs {| name := "missing.csv" |} <> inr false.
Proof. split; [reflexivity|]. vm_compute. discriminate. Qed.

(** C5, amended. A failure while opening or reading that is a
    [ValueError], as a decoding failure under the configured encoding is,
    makes [identify] return false; any other failure, as the [OSError] of a
    file that does not exist or cannot be read, is raised to the caller. *)
Theorem identify_failure self fs file_ e :
  fs (name file_) (file_encoding self) = TextIO.Raises e ->
  (is_ValueError e = true -> identify self fs file_ = inr false)
  /\ (is_ValueError e = false -> identify self fs file_ = inl e)
  /\ is_ValueError UnicodeDecodeError = true
  /\ is_ValueError OSError = false.
Proof.
  intros H. unfold identify. rewrite H.
  repeat split; intros ->; reflexivity.
Qed.

Lemma identify_failure_witness :
  identify sample_importer sample_fs {| name := "scan.pdf" |} = inr false.
Proof.
  apply (identify_failure sample_importer sample_fs {| name := "scan.pdf" |}
           UnicodeDecodeError); reflexivity.
Defined.

(** ** Malformed rows *)

Lemma extract_row_raises_date self pats file_ k1 k2 k3 index line :
  raises (_parse_date self line) ->
  raises (extract_row self pats file_ k1 k2 k3 index line).
Proof.
  intros H. unfold extract_row. cbv zeta.
  apply raises_bind_r; intros v _.
  apply raises_bind_r; intros amount _.
  apply raises_bind_r; intros m _.
  now apply raises_bind.
Qed.

Lemma extract_row_raises_amount self pats file_ k1 k2 k3 index line :
  _translate self "amount_eur" = inr k1 ->
  raises (parse_amount self line) ->
  raises (extract_row self pats file_ k1 k2 k3 index line).
Proof.
  unfold parse_amount. intros -> H. simpl in H.
  unfold extract_row. cbv zeta.
  destruct (dict_item k1 line) as [e|v]; simpl in *; [now exists e|].
  destruct (on_str PyDecimal.of_string v) as [e|a]; simpl; [now exists e|].
  now apply not_raises_inr in H.
Qed.

Lemma extract_loop_raises self pats file_ k1 k2 k3 line rows :
  In line rows ->
  (forall index, raises (extract_row self pats file_ k1 k2 k3 index line)) ->
  forall index, raises (extract_loop self pats file_ k1 k2 k3 index rows).
Proof.
  intros Hin Hrow. induction rows as [|l rest IH]; intros index; [destruct Hin|].
  simpl. destruct Hin as [->|Hin].
  - apply raises_bind. apply Hrow.
  - apply raises_bind_r; intros t _. apply raises_bind. now apply IH.
Qed.

Lemma file_date_loop_raises self line rows :
  In line rows ->
  raises (_parse_date self line) ->
  forall acc, raises (file_date_loop self rows acc).
Proof.
  intros Hin Hrow. induction rows as [|l rest IH]; intros acc; [destruct Hin|].
  simpl. destruct Hin as [->|Hin].
  - now apply raises_bind.
  - apply raises_bind_r; intros d _. now apply IH.
Qed.

(** C6 as stated does not hold: the second row of the sample file
    has the date 2021-3-7, which is not in the exact format YYYY-MM-DD;
    the file is identified, and [extract] and [file_date] return. *)
Lemma lenient_date_accepted :
  identify sample_importer sample_fs sample_file = inr true
  /\ open_rows sample_importer sample_fs sample_file = inr sample_rows
  /\ (exists line,
        nth_error sample_rows 1 = Some line
        /\ row_text sample_importer "date" line = Some "2021-3-7")
  /\ exact_iso_format "2021-3-7" = false
  /\ ~ raises (extract (fun l => l) sample_importer sample_fs sample_file)
  /\ ~ raises (file_date sample_importer sample_fs sample_file).
Proof.
  split; [vm_compute; reflexivity|].
  split; [vm_compute; reflexivity|].
  split; [eexists; split; vm_compute; reflexivity|].
  split; [reflexivity|].
  split; intros [e H]; vm_compute in H; discriminate H.
Qed.

(** C6, amended. For every data row of a file that passed identification,
    [extract] and [file_date] raise whenever [strptime] with the format
    [%Y-%m-%d] does not accept the date field of the row (it accepts a
    four-digit year and a month and a day of one or two digits that name a
    day of the calendar), and [extract] raises whenever the amount field
    of the row does not read as a decimal, as the text 12,34 does not. *)
Theorem malformed_row_raises order self fs file_ rows line :
  identify self fs file_ = inr true ->
  open_rows self fs file_ = inr rows ->
  In line rows ->
  (raises (_parse_date self line) ->
     raises (extract order self fs file_) /\ raises (file_date self fs file_))
  /\ (raises (parse_amount self line) -> raises (extract order self fs file_))
  /\ PyDecimal.of_string "12,34" = inl InvalidOperation.
Proof.
  intros Hid Hrows Hin. split; [|split; [|reflexivity]].
  - intros Hd. split.
    + unfold extract. rewrite Hid. simpl.
      apply raises_bind_r; intros k1 _.
      apply raises_bind_r; intros k2 _.
      apply raises_bind_r; intros k3 _.
      rewrite Hrows. simpl.
      apply (extract_loop_raises _ _ _ _ _ _ line); [assumption|].
      intros index. now apply extract_row_raises_date.
    + unfold file_date. rewrite Hid. simpl. rewrite Hrows. simpl.
      now apply (file_date_loop_raises _ line).
  - intros Ha. unfold extract. rewrite Hid. simpl.
    apply raises_bind_r; intros k1 Hk1.
    apply raises_bind_r; intros k2 _.
    apply raises_bind_r; intros k3 _.
    rewrite Hrows. simpl.
    apply (extract_loop_raises _ _ _ _ _ _ line); [assumption|].
    intros index. now apply extract_row_raises_amount.
Qed.

Lemma malformed_row_raises_witness :
  raises (extract (fun l => l) sample_importer sample_fs {| name := "comma.csv" |}).
Proof.
  assert (Hid : identify sample_importer sample_fs {| name := "comma.csv" |} = inr true)
    by (vm_compute; reflexivity).
  assert (Hrows : open_rows sample_importer sample_fs {| name := "comma.csv" |}
                  = inr comma_rows) by (vm_compute; reflexivity).
  destruct (malformed_row_raises (fun l => l) sample_importer sample_fs
              {| name := "comma.csv" |} comma_rows
              (nth 0 comma_rows []) Hid Hrows (or_introl eq_refl))
    as (_ & Hamount & _).
  apply Hamount. exists InvalidOperation. vm_compute. reflexivity.
Defined.

(** ** Rejected configurations *)

Lemma str_set_add_in x p seen :
  In p seen \/ p = x -> In p (str_set_add x seen).
Proof.
  unfold str_set_add. destruct (existsb (String.eqb x) seen) eqn:E.
  - intros [H| ->]; [assumption|].
    apply existsb_exists in E as (y & Hy & Exy).
    apply String.eqb_eq in Exy. now subst y.
  - intros [H| ->]; apply in_or_app; [now left|right; now left].
Qed.

(** A pattern that was seen before makes the inner loop raise. *)
Lemma init_patterns_seen acct patterns : forall seen pats p,
  In p patterns -> In p seen ->
  raises (init_patterns acct patterns (seen, pats)).
Proof.
  induction patterns as [|pat rest IH]; intros seen pats p Hin Hseen; [destruct Hin|].
  simpl. destruct (existsb (String.eqb pat) seen) eqn:E.
  - eexists. reflexivity.
  - apply raises_bind_r; intros r _.
    destruct Hin as [->|Hin].
    + assert (existsb (String.eqb p) seen = true).
      { apply existsb_exists. exists p. split; [assumption|apply String.eqb_refl]. }
      congruence.
    + apply (IH _ _ p Hin). apply str_set_add_in. now left.
Qed.

(** After the inner loop, every pattern it went over has been seen. *)
Lemma init_patterns_sees acct patterns : forall seen pats seen' pats' p,
  init_patterns acct patterns (seen, pats) = inr (seen', pats') ->
  In p seen \/ In p patterns -> In p seen'.
Proof.
  induction patterns as [|pat rest IH]; intros seen pats seen' pats' p H Hin.
  - simpl in H. injection H as <- <-. destruct Hin as [?|[]]. assumption.
  - simpl in H. destruct (existsb (String.eqb pat) seen); [discriminate|].
    bind_inv H. apply (IH _ _ _ _ p H).
    destruct Hin as [Hin|[->|Hin]].
    + left. apply str_set_add_in. now left.
    + left. apply str_set_add_in. now right.
    + now right.
Qed.

Lemma init_accounts_seen items : forall seen pats acct patterns p,
  In (acct, patterns) items -> In p patterns -> In p seen ->
  raises (init_accounts items (seen, pats)).
Proof.
  induction items as [|[a0 ps0] rest IH]; intros seen pats acct patterns p Hin Hp Hseen;
    [destruct Hin|].
  simpl. destruct Hin as [E|Hin].
  - injection E as -> ->. apply raises_bind. now apply (init_patterns_seen _ _ _ _ p).
  - apply raises_bind_r; intros [seen' pats'] H.
    apply (IH _ _ acct patterns p Hin Hp).
    apply (init_patterns_sees _ _ _ _ _ _ p H). now left.
Qed.

Lemma init_accounts_duplicate items : forall seen pats a1 ps1 a2 ps2 p,
  In (a1, ps1) items -> In (a2, ps2) items -> a1 <> a2 ->
  In p ps1 -> In p ps2 ->
  raises (init_accounts items (seen, pats)).
Proof.
  induction items as [|[a0 ps0] rest IH];
    intros seen pats a1 ps1 a2 ps2 p H1 H2 Hne Hp1 Hp2; [destruct H1|].
  simpl. apply raises_bind_r; intros [seen' pats'] H.
  destruct H1 as [E1|H1], H2 as [E2|H2].
  - congruence.
  - injection E1 as -> ->.
    apply (init_accounts_seen _ _ _ a2 ps2 p H2 Hp2).
    apply (init_patterns_sees _ _ _ _ _ _ p H). now right.
  - injection E2 as -> ->.
    apply (init_accounts_seen _ _ _ a1 ps1 p H1 Hp1).
    apply (init_patterns_sees _ _ _ _ _ _ p H). now right.
  - now apply (IH _ _ a1 ps1 a2 ps2 p).
Qed.

(** C7. Constructing an importer raises when two different accounts of
    [account_patterns] list the same pattern string, and raises
    [InvalidFormatError] when the language is not a supported one; in both
    cases no importer is returned. *)
Theorem init_rejects ib ac L enc aps :
  (forall a1 ps1 a2 ps2 p,
      In (a1, ps1) aps -> In (a2, ps2) aps -> a1 <> a2 ->
      In p ps1 -> In p ps2 ->
      raises (init ib ac L enc aps))
  /\ (_is_language_supported L = false ->
      exists msg, init ib ac L enc aps = inl (InvalidFormatError msg)).
Proof.
  split.
  - intros a1 ps1 a2 ps2 p H1 H2 Hne Hp1 Hp2. unfold init.
    destruct (_is_language_supported L); simpl; [|eexists; reflexivity].
    apply raises_bind_r; intros ts _.
    apply raises_bind.
    now apply (init_accounts_duplicate _ _ _ a1 ps1 a2 ps2 p).
  - intros H. unfold init. rewrite H. simpl. eexists. reflexivity.
Qed.

Lemma init_rejects_witness :
  raises (init "DE00" "Assets:N26" "en" "utf-8"
            [("Expenses:Shop", ["^ACME"]); ("Expenses:Tools", ["^ACME"])])
  /\ exists msg,
       init "DE00" "Assets:N26" "it" "utf-8" sample_patterns
       = inl (InvalidFormatError msg).
Proof.
  destruct (init_rejects "DE00" "Assets:N26" "en" "utf-8"
              [("Expenses:Shop", ["^ACME"]); ("Expenses:Tools", ["^ACME"])])
    as [Hdup _].
  destruct (init_rejects "DE00" "Assets:N26" "it" "utf-8" sample_patterns)
    as [_ Hlang].
  split.
  - apply (Hdup "Expenses:Shop" ["^ACME"] "Expenses:Tools" ["^ACME"] "^ACME").
    + left. reflexivity.
    + right. left. reflexivity.
    + discriminate.
    + left. reflexivity.
    + left. reflexivity.
  - apply Hlang. reflexivity.
Defined.

(** ** Determinism *)









(** * Further properties *)

(** ** The account of a file *)

(** X1. The account [file_account] gives for a file is the account of the
    first posting of every transaction [extract] returns for it. *)
Theorem file_account_is_first_posting order self fs file_ txns t :
  extract order self fs file_ = inr txns ->
  In t txns ->
  exists p rest,
    postings t = p :: rest /\ posting_account p = file_account self file_.
Proof.
  intros H Hin.
  destruct (extract_inv _ _ _ _ _ _ H Hin) as (k1 & k2 & k3 & i & line & Hr).
  apply extract_row_postings in Hr as (amount & m & _ & _ & ->).
  eexists. eexists. split; reflexivity.
Qed.

Lemma file_account_is_first_posting_witness :
  exists p rest,
    postings sample_first = p :: rest
    /\ posting_account p = file_account sample_importer sample_file.
Proof.
  apply (file_account_is_first_posting (fun l => l) sample_importer sample_fs
           sample_file sample_transactions sample_first).
  - vm_compute. reflexivity.
  - left. reflexivity.
Defined.

(** ** More on the header matcher *)

Lemma all_equal_eq expected actual :
  List.length expected = List.length actual ->
  (all_equal (combine expected actual) = true <-> expected = actual).
Proof.
  revert actual. induction expected as [|x xs IH]; intros [|y ys] Hlen;
    simpl in *; try discriminate.
  - tauto.
  - injection Hlen as Hlen. destruct (String.eqb_spec x y) as [->|Hne]; simpl.
    + rewrite (IH ys Hlen). split; [now intros ->|now intros [= ->]].
    + split; [discriminate|]. intros [= E _]. contradiction.
Qed.

(** X2. For a supported language, [is_valid_header] returns true exactly
    for the lines whose comma-separated tokens, stripped of the double
    quotes around them, are the full list of labels or the list without the
    category label. *)
Theorem header_accepted_iff L line :
  _is_language_supported L = true ->
  (is_valid_header L line = inr true
   <-> header_tokens line = full_labels L \/ header_tokens line = short_labels L).
Proof.
  intros H. rewrite (is_valid_header_eq L line H).
  destruct (header_values_supported L H) as (_ & _ & Lf & Ls & _).
  destruct (Nat.eqb_spec (List.length (full_labels L)) (List.length (header_tokens line)))
    as [E|E].
  - split.
    + intros [= A]. left. symmetry. now apply all_equal_eq.
    + intros [A|A].
      * f_equal. apply all_equal_eq; [assumption|now symmetry].
      * rewrite A, Lf, Ls in E. discriminate.
  - destruct (Nat.eqb_spec (List.length (short_labels L)) (List.length (header_tokens line)))
      as [E'|E'].
    + split.
      * intros [= A]. right. symmetry. now apply all_equal_eq.
      * intros [A|A]; [now rewrite A in E|].
        f_equal. apply all_equal_eq; [assumption|now symmetry].
    + split; [discriminate|]. intros [A|A]; [now rewrite A in E|now rewrite A in E'].
Qed.

Lemma header_accepted_iff_witness :
  is_valid_header "fr" (header_line [true; true] (short_labels "fr")) = inr true.
Proof.
  apply (header_accepted_iff "fr" _ eq_refl). right. vm_compute. reflexivity.
Defined.

(** X3. For a language that is not supported, the schema functions and the
    header matcher raise [KeyError] and construction raises
    [InvalidFormatError]; on the language of a constructed importer the
    header matcher returns a truth value for every line. *)
Theorem unsupported_language_errors L :
  (_is_language_supported L = false ->
     _translation_strings_for L = inl (KeyError L)
     /\ (forall include_optional,
           _header_values_for L include_optional = inl (KeyError L))
     /\ (forall line, is_valid_header L line = inl (KeyError L)))
  /\ (forall ib ac enc aps self line,
        init ib ac L enc aps = inr self ->
        exists b, is_valid_header (language self) line = inr b).
Proof.
  split.
  - unfold _is_language_supported. intros H.
    assert (T : _translation_strings_for L = inl (KeyError L)).
    { unfold _translation_strings_for, dict_item.
      destruct (dict_get L HEADER_FIELDS); [discriminate|reflexivity]. }
    assert (V : forall b, _header_values_for L b = inl (KeyError L)).
    { intros b. unfold _header_values_for. now rewrite T. }
    split; [assumption|]. split; [assumption|].
    intros line. unfold is_valid_header. now rewrite V.
  - intros ib ac enc aps self line H.
    apply init_inv in H as (S & -> & _).
    rewrite (is_valid_header_eq L line S). eexists. reflexivity.
Qed.

Lemma unsupported_language_errors_witness :
  is_valid_header "it" "Data,Beneficiario" = inl (KeyError "it")
  /\ exists b, is_valid_header (language sample_importer) "Data,Beneficiario" = inr b.
Proof.
  destruct (unsupported_language_errors "it") as [Hno _].
  destruct (unsupported_language_errors "en") as [_ Hyes].
  split.
  - apply Hno. reflexivity.
  - apply (Hyes _ _ _ _ _ _ sample_importer_init).
Defined.



(** ** Translating field keys *)

Lemma distinct_NoDup l : distinct l = true -> NoDup l.
Proof.
  induction l as [|x l IH]; simpl; intros H; [constructor|].
  apply andb_prop in H as [Hx Hl]. constructor; [|now apply IH].
  intros Hin. apply negb_true_iff in Hx.
  assert (existsb (String.eqb x) l = true)
    by (apply existsb_exists; exists x; split; [assumption|apply String.eqb_refl]).
  congruence.
Qed.

Lemma dict_get_in {V} k (v : V) (d : dict V) :
  dict_get k d = Some v -> In (k, v) d.
Proof.
  induction d as [|[k' v'] d IH]; simpl; [discriminate|].
  destruct (String.eqb_spec k' k) as [->|Hne].
  - intros [= ->]. now left.
  - intros H. right. now apply IH.
Qed.

(** In a dictionary with pairwise different values, a value is found under
    one key only. *)
Lemma dict_get_inj (d : dict string) k1 k2 v :
  NoDup (map snd d) ->
  dict_get k1 d = Some v -> dict_get k2 d = Some v -> k1 = k2.
Proof.
  induction d as [|[k v0] d IH]; simpl; intros N H1 H2; [discriminate|].
  inversion N as [|? ? Hnot N']; subst.
  destruct (String.eqb_spec k k1) as [E1|E1], (String.eqb_spec k k2) as [E2|E2].
  - congruence.
  - injection H1 as ->. exfalso. apply Hnot.
    apply dict_get_in in H2. now apply (in_map snd) in H2.
  - injection H2 as ->. exfalso. apply Hnot.
    apply dict_get_in in H1. now apply (in_map snd) in H1.
  - now apply IH.
Qed.

Lemma translations_distinct L ts :
  _is_language_supported L = true ->
  _translation_strings_for L = inr ts ->
  distinct (map snd ts) = true /\ map snd ts = full_labels L /\ map fst ts = map fst (schema L).
Proof.
  intros S T. destruct (supported_cases L S) as [-> | [-> | ->]];
    vm_compute in T; injection T as <-; vm_compute; auto.
Qed.

(** X5. A constructed importer translates each key of its schema to a
    label of its language and raises [KeyError] on every other key, and two
    different keys are never translated to the same label. *)
Theorem translate_spec ib ac L enc aps self :
  init ib ac L enc aps = inr self ->
  (forall key,
      In key (map fst (schema L)) ->
      exists lbl, _translate self key = inr lbl /\ In lbl (full_labels L))
  /\ (forall key,
      ~ In key (map fst (schema L)) -> _translate self key = inl (KeyError key))
  /\ (forall k1 k2 lbl,
      _translate self k1 = inr lbl -> _translate self k2 = inr lbl -> k1 = k2).
Proof.
  intros H. apply init_inv in H as (S & _ & _ & _ & T & _).
  destruct (translations_distinct L _ S T) as (D & Hl & Hk).
  unfold _translate, dict_item. split; [|split].
  - intros key Hin. rewrite <- Hk in Hin.
    destruct (dict_get key (_translation_strings self)) as [lbl|] eqn:E.
    + exists lbl. split; [reflexivity|]. rewrite <- Hl.
      apply dict_get_in in E. now apply (in_map snd) in E.
    + exfalso. clear -Hin E. induction (_translation_strings self) as [|[k v] d IH];
        simpl in *; [assumption|].
      destruct (String.eqb_spec k key); [discriminate|].
      destruct Hin as [?|Hin]; [contradiction|]. now apply IH.
  - intros key Hnot. rewrite <- Hk in Hnot.
    destruct (dict_get key (_translation_strings self)) as [lbl|] eqn:E; [|reflexivity].
    exfalso. apply Hnot. apply dict_get_in in E. now apply (in_map fst) in E.
  - intros k1 k2 lbl H1 H2.
    destruct (dict_get k1 (_translation_strings self)) as [l1|] eqn:E1; [|discriminate].
    destruct (dict_get k2 (_translation_strings self)) as [l2|] eqn:E2; [|discriminate].
    injection H1 as ->. injection H2 as ->.
    apply (dict_get_inj (_translation_strings self) k1 k2 lbl);
      [now apply distinct_NoDup|assumption|assumption].
Qed.

Lemma translate_spec_witness :
  (exists lbl, _translate sample_importer "amount_eur" = inr lbl
               /\ In lbl (full_labels "en"))
  /\ _translate sample_importer "iban" = inl (KeyError "iban").
Proof.
  destruct (translate_spec _ _ _ _ _ _ sample_importer_init) as (Hyes & Hno & _).
  split.
  - apply Hyes. vm_compute. tauto.
  - apply Hno. vm_compute. intuition discriminate.
Defined.

(** ** Construction, in full *)












(** ** What [extract] returns *)

Lemma dict_item_inr {V} k (d : dict V) v :
  dict_item k d = inr v <-> dict_get k d = Some v.
Proof.
  unfold dict_item. destruct (dict_get k d); split; intros H;
    try discriminate; now injection H as ->.
Qed.

(** The fields of the transaction made from one row. *)
Lemma extract_row_inv self pats file_ k1 k2 k3 index line t :
  extract_row self pats file_ k1 k2 k3 index line = inr t ->
  meta t = {| filename := name file_; lineno := index |}
  /\ flag t = FLAG
  /\ _parse_date self line = inr (date t)
  /\ dict_get k2 line = Some (payee t)
  /\ dict_get k3 line = Some (narration t)
  /\ exists text amount,
       dict_get k1 line = Some (Some text)
       /\ PyDecimal.of_string text = inr amount
       /\ first_amount t = Some {| number := amount; currency := "EUR" |}.
Proof.
  unfold extract_row. intros H.
  bind_inv H. bind_inv H. bind_inv H. bind_inv H. bind_inv H. bind_inv H.
  injection H as <-. simpl.
  apply dict_item_inr in Ha, Ha3, Ha4.
  repeat (split; [first [reflexivity|assumption]|]).
  destruct a as [text|]; [|discriminate].
  exists text, a0. split; [assumption|]. split; [assumption|].
  unfold first_amount. simpl. destruct a1 as [acct|]; [|reflexivity].
  destruct (PyStr.truthy acct); reflexivity.
Qed.

Lemma extract_loop_inv self pats file_ k1 k2 k3 rows : forall index txns,
  extract_loop self pats file_ k1 k2 k3 index rows = inr txns ->
  List.length txns = List.length rows
  /\ forall i t,
       nth_error txns i = Some t ->
       exists line,
         nth_error rows i = Some line
         /\ extract_row self pats file_ k1 k2 k3 (index + i) line = inr t.
Proof.
  induction rows as [|line rest IH]; simpl; intros index txns H.
  - injection H as <-. split; [reflexivity|]. intros [|i] t E; discriminate.
  - bind_inv H. bind_inv H. injection H as <-.
    destruct (IH _ _ Ha0) as (Hlen & Hnth). split; [simpl; now rewrite Hlen|].
    intros [|i] t E; simpl in E.
    + injection E as <-. exists line. rewrite Nat.add_0_r. auto.
    + destruct (Hnth i t E) as (l & Hl & Hr). exists l.
      rewrite Nat.add_succ_r. auto.
Qed.

(** [extract] returns either nothing, on a file that is not identified, or
    one transaction for each row. *)
Lemma extract_cases order self fs file_ txns :
  extract order self fs file_ = inr txns ->
  (identify self fs file_ = inr false /\ txns = [])
  \/ (identify self fs file_ = inr true
      /\ exists k1 k2 k3 rows,
           _translate self "amount_eur" = inr k1
           /\ _translate self "payee" = inr k2
           /\ _translate self "payment_reference" = inr k3
           /\ open_rows self fs file_ = inr rows
           /\ extract_loop self (order (payee_patterns self)) file_ k1 k2 k3 0 rows
              = inr txns).
Proof.
  unfold extract. intros H. bind_inv H.
  destruct a; simpl in H.
  - right. split; [assumption|].
    bind_inv H. bind_inv H. bind_inv H. bind_inv H. eauto 10.
  - left. injection H as <-. auto.
Qed.

(** X8. The transactions of [extract] are as many as the rows of the
    file, in their order; the i-th one has the name of the file and the
    index i as metadata, the flag of the importer, the date, the payee and
    the payment reference of the i-th row, and as amount in EUR the decimal
    read from the amount of that row. *)
Theorem extract_transactions_follow_rows order self fs file_ txns rows :
  extract order self fs file_ = inr txns ->
  identify self fs file_ = inr true ->
  open_rows self fs file_ = inr rows ->
  List.length txns = List.length rows
  /\ forall i t,
       nth_error txns i = Some t ->
       exists line amount,
         nth_error rows i = Some line
         /\ meta t = {| filename := name file_; lineno := i |}
         /\ flag t = FLAG
         /\ _parse_date self line = inr (date t)
         /\ row_field self "payee" line = Some (payee t)
         /\ row_field self "payment_reference" line = Some (narration t)
         /\ parse_amount self line = inr amount
         /\ first_amount t = Some {| number := amount; currency := "EUR" |}.
Proof.
  intros H Hid Hrows.
  apply extract_cases in H as [[Hno _]|(_ & k1 & k2 & k3 & rows' & K1 & K2 & K3 & Hr & H)];
    [congruence|].
  rewrite Hrows in Hr. injection Hr as <-.
  apply extract_loop_inv in H as (Hlen & Hnth). split; [assumption|].
  intros i t E. destruct (Hnth i t E) as (line & Hl & Hrow).
  apply extract_row_inv in Hrow
    as (Hm & Hf & Hd & Hp & Hn & text & amount & Ht & Ha & Hfirst).
  exists line, amount.
  unfold _translate in K1, K2, K3. apply dict_item_inr in K1, K2, K3.
  unfold row_field, parse_amount, _translate, dict_item. rewrite K1, K2, K3. simpl.
  rewrite Ht. simpl. auto 10.
Qed.

Lemma extract_transactions_follow_rows_witness :
  List.length sample_transactions = List.length sample_rows
  /\ forall i t,
       nth_error sample_transactions i = Some t ->
       exists line amount,
         nth_error sample_rows i = Some line
         /\ meta t = {| filename := name sample_file; lineno := i |}
         /\ flag t = FLAG
         /\ _parse_date sample_importer line = inr (date t)
         /\ row_field sample_importer "payee" line = Some (payee t)
         /\ row_field sample_importer "payment_reference" line = Some (narration t)
         /\ parse_amount sample_importer line = inr amount
         /\ first_amount t = Some {| number := amount; currency := "EUR" |}.
Proof.
  apply (extract_transactions_follow_rows (fun l => l) sample_importer sample_fs
           sample_file); vm_compute; reflexivity.
Defined.

(** X9. A posting after the first one never has an empty account name or
    an amount: a rule that names the empty account adds no posting. *)
Theorem counter_posting_account_not_empty order self fs file_ txns t p :
  extract order self fs file_ = inr txns ->
  In t txns ->
  In p (tl (postings t)) ->
  posting_account p <> "" /\ units p = None.
Proof.
  intros H Hin Hp.
  destruct (extract_inv _ _ _ _ _ _ H Hin) as (k1 & k2 & k3 & i & line & Hr).
  apply extract_row_postings in Hr as (amount & m & _ & _ & E).
  rewrite E in Hp. simpl in Hp.
  destruct m as [acct|]; simpl in Hp; [|destruct Hp].
  destruct acct as [|c acct]; simpl in Hp; [destruct Hp|].
  destruct Hp as [<-|[]]. split; [discriminate|reflexivity].
Qed.

Lemma counter_posting_account_not_empty_witness :
  posting_account (counter_posting "Income:Misc") <> ""
  /\ units (counter_posting "Income:Misc") = None.
Proof.
  apply (counter_posting_account_not_empty (fun l => l) sample_importer sample_fs
           sample_file sample_transactions sample_first).
  - vm_compute. reflexivity.
  - left. reflexivity.
  - left. reflexivity.
Defined.

(** ** Dates of a file *)

Lemma row_date_parse self line d :
  row_date self line = Some d -> _parse_date self line = inr d.
Proof.
  unfold row_date, row_text, row_field, _parse_date, _translate, dict_item.
  destruct (dict_get "date" (_translation_strings self)) as [k|]; [|discriminate].
  simpl. destruct (dict_get k line) as [[ds|]|]; try discriminate. simpl.
  destruct (Datetime.strptime_ymd ds); [discriminate|]. now intros [= ->].
Qed.

(** The loop of [file_date] over rows whose dates parse. *)
Lemma file_date_loop_dates self rows : forall dates seen acc,
  Forall2 (fun line d => _parse_date self line = inr d) rows dates ->
  is_latest seen acc ->
  exists res,
    file_date_loop self rows acc = inr res /\ is_latest (seen ++ dates) res.
Proof.
  induction rows as [|line rest IH]; intros dates seen acc F L;
    inversion F as [|? d ? dates' Hd F']; subst; simpl.
  - exists acc. now rewrite app_nil_r.
  - rewrite Hd. simpl.
    replace (seen ++ d :: dates') with ((seen ++ [d]) ++ dates')
      by (now rewrite <- app_assoc).
    apply IH; [assumption|].
    destruct acc as [m|]; simpl in L.
    + destruct L as [Lin Lmax].
      destruct (Datetime.date_gtb d m) eqn:G; simpl.
      * split; [apply in_or_app; right; now left|].
        intros d' Hd'. apply in_app_or in Hd' as [Hd'|[<-|[]]].
        -- eapply date_gtb_trans; [apply Lmax|]; eassumption.
        -- apply date_gtb_irrefl.
      * split; [apply in_or_app; now left|].
        intros d' Hd'. apply in_app_or in Hd' as [Hd'|[<-|[]]]; auto.
    + subst seen. simpl. split; [now left|].
      intros d' [<-|[]]. apply date_gtb_irrefl.
Qed.

(** When the loop returns, the date of every row has parsed. *)
Lemma file_date_loop_inv self rows : forall acc res,
  file_date_loop self rows acc = inr res ->
  exists dates, Forall2 (fun line d => _parse_date self line = inr d) rows dates.
Proof.
  induction rows as [|line rest IH]; simpl; intros acc res H.
  - exists []. constructor.
  - bind_inv H. destruct (IH _ _ H) as (dates & F).
    exists (a :: dates). now constructor.
Qed.

(** X10. When [extract] returns, [file_date] returns on the same file, and
    its result is the latest of the dates of the transactions: one of them
    that none exceeds, or no date when there is no transaction. *)
Theorem file_date_agrees_with_extract order self fs file_ txns :
  extract order self fs file_ = inr txns ->
  exists latest,
    file_date self fs file_ = inr latest
    /\ is_latest (map date txns) latest.
Proof.
  intros H.
  apply extract_cases in H as [[Hno ->]|(Hid & k1 & k2 & k3 & rows & _ & _ & _ & Hr & H)].
  - exists None. unfold file_date. rewrite Hno. split; reflexivity.
  - apply extract_loop_inv in H as (Hlen & Hnth).
    assert (F : Forall2 (fun line d => _parse_date self line = inr d)
                  rows (map date txns)).
    { clear Hr. revert txns Hlen Hnth.
      generalize 0 as index.
      induction rows as [|line rest IH]; intros index [|t txns] Hlen Hnth;
        simpl in *; try discriminate; constructor.
      - destruct (Hnth 0 t eq_refl) as (l & [= <-] & Hrow).
        now apply extract_row_inv in Hrow as (_ & _ & Hd & _).
      - apply (IH (S index)); [now injection Hlen|].
        intros i t' E. destruct (Hnth (S i) t' E) as (l & Hl & Hrow).
        exists l. split; [assumption|]. now rewrite Nat.add_succ_r in Hrow. }
    destruct (file_date_loop_dates self rows (map date txns) [] None F eq_refl)
      as (latest & Hfd & Hlatest).
    exists latest. split; [|assumption].
    unfold file_date. rewrite Hid. simpl. rewrite Hr. simpl. exact Hfd.
Qed.

Lemma file_date_agrees_with_extract_witness :
  exists latest,
    file_date sample_importer sample_fs sample_file = inr latest
    /\ is_latest (map date sample_transactions) latest.
Proof.
  apply (file_date_agrees_with_extract (fun l => l)). vm_compute. reflexivity.
Defined.

(** X11. [file_date] needs the dates only: on an identified file whose
    rows all have a date that parses it returns the latest of these dates,
    whatever the other columns hold. *)
Theorem file_date_needs_dates_only self fs file_ rows :
  identify self fs file_ = inr true ->
  open_rows self fs file_ = inr rows ->
  forallb (fun line => is_some (row_date self line)) rows = true ->
  exists latest,
    file_date self fs file_ = inr latest
    /\ is_latest (row_dates self rows) latest.
Proof.
  intros Hid Hr W.
  assert (F : Forall2 (fun line d => _parse_date self line = inr d)
                rows (row_dates self rows)).
  { clear Hr. induction rows as [|line rest IH]; [constructor|].
    simpl in W. apply andb_prop in W as [W1 W2].
    unfold row_dates. simpl. fold (row_dates self rest).
    destruct (row_date self line) as [d|] eqn:E; [|discriminate].
    simpl. constructor; [now apply row_date_parse|now apply IH]. }
  destruct (file_date_loop_dates self rows _ [] None F eq_refl)
    as (latest & Hfd & Hlatest).
  exists latest. split; [|assumption].
  unfold file_date. rewrite Hid. simpl. rewrite Hr. simpl. exact Hfd.
Qed.

Lemma file_date_needs_dates_only_witness :
  exists latest,
    file_date sample_importer sample_fs {| name := "comma.csv" |} = inr latest
    /\ is_latest (row_dates sample_importer comma_rows) latest.
Proof.
  apply file_date_needs_dates_only; vm_compute; reflexivity.
Defined.

Lemma make_date_valid y m d dt :
  Datetime.make_date y m d = inr dt -> valid_date dt.
Proof.
  unfold Datetime.make_date, valid_date.
  destruct (_ && _)%bool eqn:E; [|discriminate].
  intros [= <-]. simpl.
  repeat (apply andb_prop in E as [E ?]).
  repeat match goal with
         | H : (_ <=? _)%N = true |- _ => apply N.leb_le in H
         end.
  lia.
Qed.

Lemma strptime_valid s d : Datetime.strptime_ymd s = inr d -> valid_date d.
Proof.
  unfold Datetime.strptime_ymd.
  destruct (list_ascii_of_string s) as [|y1 [|y2 [|y3 [|y4 [|dash rest]]]]];
    try discriminate.
  destruct (_ && _)%bool; [|discriminate].
  destruct (Datetime.first_month_day _) as [[[m dd] [|? ?]]|]; try discriminate.
  apply make_date_valid.
Qed.

Lemma parse_date_valid self line d : _parse_date self line = inr d -> valid_date d.
Proof.
  unfold _parse_date. intros H. bind_inv H. bind_inv H.
  destruct a0 as [s|]; [|discriminate]. now apply strptime_valid in H.
Qed.

(** X12. Every date [extract] puts into a transaction and every date
    [file_date] returns is a day of the calendar, with a year from 1 to
    9999. *)
Theorem dates_are_calendar_days order self fs file_ :
  (forall txns t,
      extract order self fs file_ = inr txns -> In t txns -> valid_date (date t))
  /\ (forall d, file_date self fs file_ = inr (Some d) -> valid_date d).
Proof.
  split.
  - intros txns t H Hin.
    destruct (extract_inv _ _ _ _ _ _ H Hin) as (k1 & k2 & k3 & i & line & Hr).
    apply extract_row_inv in Hr as (_ & _ & Hd & _).
    now apply parse_date_valid in Hd.
  - intros d H. unfold file_date in H. bind_inv H.
    destruct a; simpl in H; [|discriminate].
    bind_inv H. rename a into rows.
    destruct (file_date_loop_inv self rows None (Some d) H) as (dates & F).
    destruct (file_date_loop_dates self rows dates [] None F eq_refl)
      as (res & Hres & Hlatest).
    rewrite H in Hres. injection Hres as <-.
    destruct Hlatest as [Hin _]. simpl in Hin.
    clear -F Hin. induction F as [|line d0 rows dates Hd F IH]; [destruct Hin|].
    destruct Hin as [<-|Hin]; [now apply parse_date_valid in Hd|now apply IH].
Qed.

Lemma dates_are_calendar_days_witness : valid_date (date sample_first).
Proof.
  destruct (dates_are_calendar_days (fun l => l) sample_importer sample_fs sample_file)
    as [H _].
  apply (H sample_transactions sample_first).
  - vm_compute. reflexivity.
  - left. reflexivity.
Defined.

(** ** The first line of a file *)

Lemma universal_newlines_line l sep rest :
  no_line_break l = true ->
  Csv.is_eol_char sep = true ->
  exists tail,
    TextIO.universal_newlines (l ++ String sep rest)
    = (l ++ String PyStr.newline tail)%string.
Proof.
  unfold no_line_break. intros Hl Hsep.
  induction l as [|c l IH]; simpl in *.
  - unfold Csv.is_eol_char in Hsep. apply orb_prop in Hsep as [E|E].
    + apply Ascii.eqb_eq in E. subst sep. simpl. eexists. reflexivity.
    + rewrite E. eexists. reflexivity.
  - apply andb_prop in Hl as [Hc Hl]. apply negb_true_iff in Hc.
    unfold Csv.is_eol_char in Hc. apply orb_false_elim in Hc as [_ Hc].
    rewrite Hc. destruct (IH Hl) as (tail & ->). eexists. reflexivity.
Qed.

Lemma universal_newlines_plain l :
  no_line_break l = true -> TextIO.universal_newlines l = l.
Proof.
  unfold no_line_break. induction l as [|c l IH]; simpl; intros Hl; [reflexivity|].
  apply andb_prop in Hl as [Hc Hl]. apply negb_true_iff in Hc.
  unfold Csv.is_eol_char in Hc. apply orb_false_elim in Hc as [_ Hc].
  rewrite Hc. now rewrite IH.
Qed.

Lemma readline_line l tail :
  no_line_break l = true ->
  TextIO.readline (l ++ String PyStr.newline tail) = (l ++ line_feed)%string.
Proof.
  unfold no_line_break. induction l as [|c l IH]; simpl; intros Hl; [reflexivity|].
  apply andb_prop in Hl as [Hc Hl]. apply negb_true_iff in Hc.
  unfold Csv.is_eol_char in Hc. apply orb_false_elim in Hc as [Hc _].
  rewrite Hc. now rewrite IH.
Qed.

Lemma readline_plain l :
  no_line_break l = true -> TextIO.readline l = l.
Proof.
  unfold no_line_break. induction l as [|c l IH]; simpl; intros Hl; [reflexivity|].
  apply andb_prop in Hl as [Hc Hl]. apply negb_true_iff in Hc.
  unfold Csv.is_eol_char in Hc. apply orb_false_elim in Hc as [Hc _].
  rewrite Hc. now rewrite IH.
Qed.

Lemma rstrip_app_char p s c :
  p c = true -> PyStr.rstrip p (s ++ String c "") = PyStr.rstrip p s.
Proof.
  intros Hc. induction s as [|a s IH]; simpl.
  - now rewrite Hc.
  - now rewrite IH.
Qed.

Lemma lstrip_app_char p l c :
  p c = true ->
  PyStr.lstrip p (l ++ String c "")
  = match PyStr.lstrip p l with
    | EmptyString => ""
    | s => (s ++ String c "")%string
    end.
Proof.
  intros Hc. induction l as [|a l IH]; simpl.
  - now rewrite Hc.
  - destruct (p a); [exact IH|reflexivity].
Qed.

(** Stripping ignores a character of the stripped kind at the end. *)
Lemma strip_app_char p l c :
  p c = true -> PyStr.strip p (l ++ String c "") = PyStr.strip p l.
Proof.
  intros Hc. unfold PyStr.strip. rewrite lstrip_app_char by assumption.
  destruct (PyStr.lstrip p l) as [|a s]; [reflexivity|].
  now apply rstrip_app_char.
Qed.

Lemma first_line_of_line l sep rest :
  no_line_break l = true ->
  Csv.is_eol_char sep = true ->
  first_line (l ++ String sep rest) = PyStr.strip PyStr.is_space l.
Proof.
  intros Hl Hsep. unfold first_line.
  destruct (universal_newlines_line l sep rest Hl Hsep) as (tail & ->).
  rewrite readline_line by assumption.
  now apply strip_app_char.
Qed.

(** X13. [identify] looks at the first line only: whatever follows the
    first line feed or carriage return (so also after the pair of both),
    and whatever white space surrounds the line, the answer is that of the
    header matcher on the line without the surrounding white space. *)
Theorem identify_reads_first_line self fs file_ l :
  no_line_break l = true ->
  (fs (name file_) (file_encoding self) = TextIO.Decoded l ->
     identify self fs file_
     = is_valid_header (language self) (PyStr.strip PyStr.is_space l))
  /\ (forall sep rest,
        Csv.is_eol_char sep = true ->
        fs (name file_) (file_encoding self) = TextIO.Decoded (l ++ String sep rest) ->
        identify self fs file_
        = is_valid_header (language self) (PyStr.strip PyStr.is_space l)).
Proof.
  intros Hl. split.
  - intros Hfs. rewrite (identify_decoded self fs file_ _ Hfs).
    unfold first_line. now rewrite universal_newlines_plain, readline_plain.
  - intros sep rest Hsep Hfs. rewrite (identify_decoded self fs file_ _ Hfs).
    now rewrite first_line_of_line.
Qed.

Lemma identify_reads_first_line_witness :
  identify sample_importer
    (fun _ _ => TextIO.Decoded
                  (("  " ++ sample_header)
                   ++ String PyStr.carriage_return (line_feed ++ "anything")))
    sample_file
  = is_valid_header "en" (PyStr.strip PyStr.is_space ("  " ++ sample_header)).
Proof.
  destruct (identify_reads_first_line sample_importer
              (fun _ _ => TextIO.Decoded
                  (("  " ++ sample_header)
                   ++ String PyStr.carriage_return (line_feed ++ "anything")))
              sample_file ("  " ++ sample_header)) as [_ H].
  - vm_compute. reflexivity.
  - apply (H PyStr.carriage_return (line_feed ++ "anything")%string); reflexivity.
Defined.

(** ** Letter case *)









(** ** Dates in ISO form *)

Lemma forallb_seq_nat (f : nat -> bool) start len n :
  forallb f (seq start len) = true -> start <= n < start + len -> f n = true.
Proof.
  intros H Hn. rewrite forallb_forall in H. apply H. apply in_seq. exact Hn.
Qed.

Lemma years_read_back : forallb year_reads_back (seq 0 (100 * 100)) = true.
Proof. vm_compute. reflexivity. Qed.

Lemma months_days_read_back :
  forallb (fun m => forallb (month_day_read_back m) (seq 1 31)) (seq 1 12) = true.
Proof. vm_compute. reflexivity. Qed.

Lemma days_in_month_le y m : (Datetime.days_in_month y m <= 31)%N.
Proof.
  unfold Datetime.days_in_month.
  destruct (m =? 2)%N; [destruct (Datetime.is_leap y); lia|].
  destruct (_ || _)%bool; lia.
Qed.

(** A date of the calendar in ISO form is read back as itself. *)
Lemma strptime_isoformat d :
  valid_date d -> Datetime.strptime_ymd (isoformat d) = inr d.
Proof.
  destruct d as [y m dd]. unfold valid_date. simpl. intros (Hy & Hm & Hd).
  pose proof (days_in_month_le y m) as Hdim.
  pose proof (forallb_seq_nat _ _ _ (N.to_nat y) years_read_back) as Yok.
  unfold year_reads_back in Yok. rewrite N2Nat.id in Yok.
  specialize (Yok ltac:(lia)). apply andb_prop in Yok as [Yd Yv].
  apply N.eqb_eq in Yv.
  pose proof (forallb_seq_nat _ _ _ (N.to_nat m) months_days_read_back ltac:(lia)) as Mok.
  pose proof (forallb_seq_nat _ _ _ (N.to_nat dd) Mok ltac:(lia)) as MDok.
  unfold month_day_read_back in MDok. rewrite !N2Nat.id in MDok.
  unfold isoformat, Datetime.strptime_ymd. simpl Datetime.year.
  simpl Datetime.month. simpl Datetime.day.
  rewrite list_ascii_of_string_of_list_ascii.
  cbn [forallb] in Yd. rewrite andb_true_r in Yd.
  apply andb_prop in Yd as [Y1 Yd]. apply andb_prop in Yd as [Y2 Yd].
  apply andb_prop in Yd as [Y3 Y4].
  rewrite Y1, Y2, Y3, Y4. cbn [andb]. rewrite Ascii.eqb_refl.
  destruct (Datetime.first_month_day _) as [[[m' d'] [|? ?]]|]; try discriminate.
  apply andb_prop in MDok as [Em Ed].
  apply N.eqb_eq in Em, Ed. subst m' d'. rewrite Yv.
  unfold Datetime.make_date.
  replace (_ && _)%bool with true; [reflexivity|].
  symmetry. repeat (apply andb_true_intro; split); apply N.leb_le; lia.
Qed.

(** X15. A row that holds under the date label a day of the calendar in
    ISO form (year in four digits, month and day in two) is given that day
    by [_parse_date]. *)
Theorem parse_date_reads_isoformat self line k d :
  _translate self "date" = inr k ->
  dict_get k line = Some (Some (isoformat d)) ->
  valid_date d ->
  _parse_date self line = inr d.
Proof.
  intros Hk Hv Hd. unfold _parse_date, dict_item. rewrite Hk. simpl.
  rewrite Hv. simpl. now apply strptime_isoformat.
Qed.

Lemma parse_date_reads_isoformat_witness :
  _parse_date sample_importer sample_row
  = inr {| Datetime.year := 2021; Datetime.month := 3; Datetime.day := 5 |}.
Proof.
  apply (parse_date_reads_isoformat sample_importer sample_row "Date").
  - reflexivity.
  - reflexivity.
  - vm_compute. intuition discriminate.
Defined.

(** ** Reading back a written CSV file *)

Lemma feed_app s1 : forall p s2,
  feed p (s1 ++ s2) = bind (feed p s1) (fun p' => feed p' s2).
Proof.
  induction s1 as [|c s1 IH]; intros p s2; simpl; [reflexivity|].
  destruct (Csv.parse_process_char p (Some c)); simpl; [reflexivity|apply IH].
Qed.

Lemma parse_chars_app s1 : forall p s2,
  Csv.parse_chars p (s1 ++ s2) = bind (feed p s1) (fun p' => Csv.parse_chars p' s2).
Proof.
  induction s1 as [|c s1 IH]; intros p s2; simpl; [reflexivity|].
  destruct (Csv.parse_process_char p (Some c)); simpl; [reflexivity|apply IH].
Qed.

(** What [field_ok] says of one character. *)
Lemma field_ok_cons quoted c f :
  field_ok quoted (String c f) = true ->
  Ascii.eqb c PyStr.dquote = false
  /\ Csv.is_eol_char c = false
  /\ (quoted = false -> Ascii.eqb c PyStr.comma = false)
  /\ field_ok quoted f = true.
Proof.
  unfold field_ok. simpl. intros H.
  apply andb_prop in H as [H Hf]. apply andb_prop in H as [H Hc].
  apply andb_prop in H as [Hq He].
  apply negb_true_iff in Hq, He. unfold PyStr.is_dquote in Hq.
  repeat split; try assumption.
  intros ->. simpl in Hc. now apply negb_true_iff in Hc.
Qed.

Lemma rev_cons_app {A} (c : A) l acc : rev (c :: l) ++ acc = rev l ++ c :: acc.
Proof. simpl. now rewrite <- app_assoc. Qed.

Lemma feed_in_field f : forall cur fields,
  field_ok false f = true ->
  feed {| Csv.st := Csv.IN_FIELD; Csv.cur := cur; Csv.fields := fields |} f
  = inr {| Csv.st := Csv.IN_FIELD;
           Csv.cur := rev (list_ascii_of_string f) ++ cur;
           Csv.fields := fields |}.
Proof.
  induction f as [|c f IH]; intros cur fields H; [reflexivity|].
  apply field_ok_cons in H as (Hq & He & Hc & Hf). specialize (Hc eq_refl).
  simpl feed. unfold Csv.parse_process_char. simpl Csv.st. rewrite He, Hc.
  unfold Csv.parse_add_char. simpl. rewrite IH by assumption.
  now rewrite <- app_assoc.
Qed.

Lemma feed_in_quoted f : forall cur fields,
  field_ok true f = true ->
  feed {| Csv.st := Csv.IN_QUOTED_FIELD; Csv.cur := cur; Csv.fields := fields |} f
  = inr {| Csv.st := Csv.IN_QUOTED_FIELD;
           Csv.cur := rev (list_ascii_of_string f) ++ cur;
           Csv.fields := fields |}.
Proof.
  induction f as [|c f IH]; intros cur fields H; [reflexivity|].
  apply field_ok_cons in H as (Hq & He & Hc & Hf).
  simpl feed. unfold Csv.parse_process_char. simpl Csv.st. rewrite Hq.
  unfold Csv.parse_add_char. simpl. rewrite IH by assumption.
  now rewrite <- app_assoc.
Qed.

Lemma saved_field f :
  string_of_list_ascii (rev (rev (list_ascii_of_string f) ++ [])) = f.
Proof.
  now rewrite app_nil_r, rev_involutive, string_of_list_ascii_of_string.
Qed.

(** The parser after the characters of a written field, at the start of a
    field: inside the field, with its characters. *)
Lemma feed_field quoted f st0 fields :
  field_ok quoted f = true ->
  st0 = Csv.START_FIELD \/ st0 = Csv.START_RECORD ->
  wrap quoted f <> "" ->
  exists st1,
    feed {| Csv.st := st0; Csv.cur := []; Csv.fields := fields |} (wrap quoted f)
    = inr {| Csv.st := st1;
             Csv.cur := rev (list_ascii_of_string f);
             Csv.fields := fields |}
    /\ (st1 = Csv.IN_FIELD \/ st1 = Csv.QUOTE_IN_QUOTED_FIELD).
Proof.
  intros Hf Hst Hne. destruct quoted; simpl wrap in *.
  - exists Csv.QUOTE_IN_QUOTED_FIELD. split; [|now right].
    change (String PyStr.dquote (f ++ String PyStr.dquote ""))
      with (String PyStr.dquote "" ++ (f ++ String PyStr.dquote ""))%string.
    rewrite feed_app.
    assert (E : feed {| Csv.st := st0; Csv.cur := []; Csv.fields := fields |}
                  (String PyStr.dquote "")
                = inr {| Csv.st := Csv.IN_QUOTED_FIELD; Csv.cur := [];
                         Csv.fields := fields |})
      by (destruct Hst as [-> | ->]; reflexivity).
    rewrite E. simpl bind. rewrite feed_app, feed_in_quoted by assumption.
    simpl bind. rewrite app_nil_r. reflexivity.
  - exists Csv.IN_FIELD. split; [|now left].
    destruct f as [|c f]; [congruence|].
    pose proof Hf as Hf0.
    apply field_ok_cons in Hf as (Hq & He & Hc & Hf). specialize (Hc eq_refl).
    simpl feed.
    assert (E : Csv.parse_process_char
                  {| Csv.st := st0; Csv.cur := []; Csv.fields := fields |} (Some c)
                = inr {| Csv.st := Csv.IN_FIELD; Csv.cur := [c];
                         Csv.fields := fields |}).
    { unfold Csv.parse_process_char. simpl Csv.st.
      destruct Hst as [-> | ->]; rewrite He, ?Hq, ?Hc; reflexivity. }
    rewrite E. simpl bind. rewrite feed_in_field by assumption.
    reflexivity.
Qed.

Lemma field_then_comma quoted f st0 fields :
  field_ok quoted f = true ->
  st0 = Csv.START_FIELD \/ st0 = Csv.START_RECORD ->
  feed {| Csv.st := st0; Csv.cur := []; Csv.fields := fields |}
       (wrap quoted f ++ String PyStr.comma "")
  = inr {| Csv.st := Csv.START_FIELD; Csv.cur := []; Csv.fields := fields ++ [f] |}.
Proof.
  intros Hf Hst.
  destruct (String.eqb_spec (wrap quoted f) "") as [E|Hne].
  - destruct quoted; [discriminate|]. simpl in E. subst f. simpl.
    destruct Hst as [-> | ->]; reflexivity.
  - destruct (feed_field quoted f st0 fields Hf Hst Hne) as (st1 & Hfeed & Hst1).
    rewrite feed_app, Hfeed. simpl bind.
    pose proof (saved_field f) as S. rewrite app_nil_r in S.
    destruct Hst1 as [-> | ->]; unfold feed, Csv.parse_process_char; simpl;
      unfold Csv.parse_save_field, Csv.set_state; simpl; now rewrite S.
Qed.

Lemma field_then_end quoted f st0 fields :
  field_ok quoted f = true ->
  st0 = Csv.START_FIELD \/ (st0 = Csv.START_RECORD /\ wrap quoted f <> "") ->
  Csv.parse_chars {| Csv.st := st0; Csv.cur := []; Csv.fields := fields |}
                  (wrap quoted f ++ line_feed)
  = inr {| Csv.st := Csv.START_RECORD; Csv.cur := []; Csv.fields := fields ++ [f] |}.
Proof.
  intros Hf Hst.
  destruct (String.eqb_spec (wrap quoted f) "") as [E|Hne].
  - destruct quoted; [discriminate|]. simpl in E. subst f.
    destruct Hst as [-> | [_ Hne]]; [reflexivity|]. now elim Hne.
  - assert (Hst' : st0 = Csv.START_FIELD \/ st0 = Csv.START_RECORD) by tauto.
    destruct (feed_field quoted f st0 fields Hf Hst' Hne) as (st1 & Hfeed & Hst1).
    rewrite parse_chars_app, Hfeed. simpl bind.
    pose proof (saved_field f) as S. rewrite app_nil_r in S.
    destruct Hst1 as [-> | ->]; unfold line_feed, Csv.parse_chars,
      Csv.parse_process_char; simpl;
      unfold Csv.parse_save_field, Csv.set_state; simpl; now rewrite S.
Qed.

Lemma header_line_cons q f f' fs :
  header_line q (f :: f' :: fs)
  = (wrap (hd false q) f ++ String PyStr.comma (header_line (tl q) (f' :: fs)))%string.
Proof. reflexivity. Qed.

Lemma string_app_assoc (a b c : string) : ((a ++ b) ++ c = a ++ (b ++ c))%string.
Proof. induction a as [|x a IH]; simpl; [reflexivity|now rewrite IH]. Qed.

(** The parser over the line of a record: the fields of the record. *)
Lemma parse_line fields : forall q st0 saved,
  fields <> [] ->
  fields_ok q fields = true ->
  st0 = Csv.START_FIELD \/ (st0 = Csv.START_RECORD /\ header_line q fields <> "") ->
  Csv.parse_chars {| Csv.st := st0; Csv.cur := []; Csv.fields := saved |}
                  (header_line q fields ++ line_feed)
  = inr {| Csv.st := Csv.START_RECORD; Csv.cur := []; Csv.fields := saved ++ fields |}.
Proof.
  induction fields as [|f fs IH]; intros q st0 saved Hne Hok Hst; [congruence|].
  simpl in Hok. apply andb_prop in Hok as [Hf Hfs].
  destruct fs as [|f' fs].
  - now apply field_then_end.
  - rewrite header_line_cons.
    change (String PyStr.comma (header_line (tl q) (f' :: fs)))
      with (String PyStr.comma "" ++ header_line (tl q) (f' :: fs))%string.
    rewrite <- string_app_assoc, string_app_assoc, parse_chars_app.
    rewrite field_then_comma by tauto.
    simpl bind. rewrite IH; [|discriminate|assumption|now left].
    now rewrite <- app_assoc.
Qed.

Lemma reader_written records :
  forallb record_ok records = true ->
  Csv.reader (map csv_line records) = inr (map snd records).
Proof.
  unfold Csv.reader. induction records as [|[q fields] rest IH]; intros H;
    [reflexivity|].
  simpl in H. apply andb_prop in H as [Hr Hrest].
  unfold record_ok in Hr. simpl in Hr. apply andb_prop in Hr as [Hok Hnb].
  apply negb_true_iff in Hnb. apply String.eqb_neq in Hnb.
  simpl. unfold csv_line at 1. simpl fst. simpl snd.
  assert (Hne : fields <> []) by (intros ->; now apply Hnb).
  unfold Csv.parse_reset at 1.
  rewrite parse_line by tauto.
  simpl. rewrite IH by assumption. reflexivity.
Qed.

Lemma no_line_break_app a b :
  no_line_break (a ++ b) = no_line_break a && no_line_break b.
Proof.
  unfold no_line_break. induction a as [|c a IH]; simpl; [reflexivity|].
  now rewrite IH, andb_assoc.
Qed.

Lemma field_ok_no_break quoted f :
  field_ok quoted f = true -> no_line_break (wrap quoted f) = true.
Proof.
  intros H.
  assert (N : no_line_break f = true).
  { induction f as [|c f IH]; [reflexivity|].
    apply field_ok_cons in H as (_ & He & _ & Hf).
    unfold no_line_break in *. simpl. rewrite He. simpl. now apply IH. }
  destruct quoted; simpl; [|assumption].
  change (String PyStr.dquote (f ++ String PyStr.dquote ""))
    with (String PyStr.dquote "" ++ (f ++ String PyStr.dquote ""))%string.
  rewrite !no_line_break_app, N. reflexivity.
Qed.

Lemma header_line_no_break fields : forall q,
  fields_ok q fields = true -> no_line_break (header_line q fields) = true.
Proof.
  induction fields as [|f fs IH]; intros q H; [reflexivity|].
  simpl in H. apply andb_prop in H as [Hf Hfs].
  destruct fs as [|f' fs].
  - now apply field_ok_no_break.
  - rewrite header_line_cons.
    change (String PyStr.comma (header_line (tl q) (f' :: fs)))
      with (String PyStr.comma "" ++ header_line (tl q) (f' :: fs))%string.
    rewrite !no_line_break_app, field_ok_no_break, IH by assumption. reflexivity.
Qed.

Lemma universal_newlines_after_line l rest :
  no_line_break l = true ->
  TextIO.universal_newlines (l ++ String PyStr.newline rest)
  = (l ++ String PyStr.newline (TextIO.universal_newlines rest))%string.
Proof.
  unfold no_line_break. induction l as [|c l IH]; simpl; intros Hl; [reflexivity|].
  apply andb_prop in Hl as [Hc Hl]. apply negb_true_iff in Hc.
  unfold Csv.is_eol_char in Hc. apply orb_false_elim in Hc as [_ Hc].
  rewrite Hc. now rewrite IH.
Qed.

Lemma readlines_after_line l rest :
  no_line_break l = true ->
  TextIO.readlines (l ++ String PyStr.newline rest)
  = (l ++ line_feed)%string :: TextIO.readlines rest.
Proof.
  unfold no_line_break. induction l as [|c l IH]; simpl; intros Hl; [reflexivity|].
  apply andb_prop in Hl as [Hc Hl]. apply negb_true_iff in Hc.
  unfold Csv.is_eol_char in Hc. apply orb_false_elim in Hc as [Hc _].
  rewrite Hc. now rewrite IH.
Qed.

Lemma csv_file_cons r rest :
  csv_file (r :: rest)
  = (header_line (fst r) (snd r) ++ String PyStr.newline (csv_file rest))%string.
Proof. simpl. unfold csv_line, line_feed. now rewrite string_app_assoc. Qed.

Lemma record_ok_inv r :
  record_ok r = true ->
  fields_ok (fst r) (snd r) = true
  /\ header_line (fst r) (snd r) <> ""
  /\ snd r <> [].
Proof.
  unfold record_ok. intros H. apply andb_prop in H as [Hok Hnb].
  apply negb_true_iff in Hnb. apply String.eqb_neq in Hnb.
  repeat split; try assumption. intros E. apply Hnb. now rewrite E.
Qed.

(** The lines of a written file are the lines of its records. *)
Lemma lines_of_csv_file records :
  forallb record_ok records = true ->
  TextIO.readlines (TextIO.universal_newlines (csv_file records))
  = map csv_line records.
Proof.
  induction records as [|r rest IH]; intros H; [reflexivity|].
  simpl in H. apply andb_prop in H as [Hr Hrest].
  apply record_ok_inv in Hr as (Hok & _ & _).
  pose proof (header_line_no_break _ _ Hok) as Hnb.
  rewrite csv_file_cons, universal_newlines_after_line, readlines_after_line
    by assumption.
  rewrite IH by assumption. reflexivity.
Qed.

Lemma filter_written data :
  forallb record_ok data = true ->
  filter (fun r => negb (Csv.is_empty_record r)) (map snd data) = map snd data.
Proof.
  induction data as [|r rest IH]; intros H; [reflexivity|].
  simpl in H. apply andb_prop in H as [Hr Hrest].
  apply record_ok_inv in Hr as (_ & _ & Hne).
  simpl. destruct (snd r) eqn:E; [congruence|]. simpl. now rewrite IH.
Qed.

(** The rows [csv.DictReader] makes of a written file: one for each
    record after the header. *)
Lemma rows_of_csv_file header data :
  forallb record_ok (header :: data) = true ->
  rows_of (csv_file (header :: data))
  = inr (map (Csv.make_row (snd header)) (map snd data)).
Proof.
  intros H. unfold rows_of, Csv.DictReader.
  rewrite lines_of_csv_file, reader_written by assumption.
  simpl in H. apply andb_prop in H as [_ H].
  simpl. now rewrite filter_written.
Qed.

Lemma lstrip_starts_ok s : starts_ok s = true -> PyStr.lstrip PyStr.is_space s = s.
Proof.
  destruct s as [|c s]; simpl; [discriminate|].
  intros H. apply negb_true_iff in H. now rewrite H.
Qed.

Lemma rstrip_ends_ok s : ends_ok s = true -> PyStr.rstrip PyStr.is_space s = s.
Proof.
  induction s as [|c s IH]; [discriminate|].
  destruct s as [|c' s].
  - simpl. intros H. apply negb_true_iff in H. now rewrite H.
  - intros H. change (ends_ok (String c' s) = true) in H.
    specialize (IH H).
    change (PyStr.rstrip PyStr.is_space (String c (String c' s)))
      with (match PyStr.rstrip PyStr.is_space (String c' s) with
            | EmptyString => if PyStr.is_space c then "" else String c ""
            | r => String c r
            end).
    now rewrite IH.
Qed.

Lemma ends_ok_app a b : b <> "" -> ends_ok (a ++ b) = ends_ok b.
Proof.
  intros Hb. induction a as [|c a IH]; [reflexivity|].
  simpl. destruct (a ++ b)%string eqn:E.
  - destruct a; simpl in E; [congruence|discriminate].
  - exact IH.
Qed.

Lemma starts_ok_app a b : starts_ok a = true -> starts_ok (a ++ b) = true.
Proof. destruct a; [discriminate|]. now simpl. Qed.

Lemma wrap_ends quoted l :
  starts_ok l = true -> ends_ok l = true ->
  starts_ok (wrap quoted l) = true /\ ends_ok (wrap quoted l) = true
  /\ wrap quoted l <> "".
Proof.
  intros Hs He. destruct quoted; unfold wrap.
  - split; [reflexivity|]. split; [|discriminate].
    change (String PyStr.dquote (l ++ String PyStr.dquote ""))
      with (String PyStr.dquote l ++ String PyStr.dquote "")%string.
    rewrite ends_ok_app by discriminate. reflexivity.
  - repeat split; try assumption. destruct l; discriminate.
Qed.

(** A header line of such labels is left alone by white-space stripping. *)
Lemma header_line_strip labels : forall q,
  labels <> [] ->
  forallb header_label_ok labels = true ->
  starts_ok (header_line q labels) = true
  /\ ends_ok (header_line q labels) = true.
Proof.
  induction labels as [|l ls IH]; intros q Hne H; [congruence|].
  simpl in H. apply andb_prop in H as [Hl Hls].
  unfold header_label_ok in Hl.
  apply andb_prop in Hl as [Hl He]. apply andb_prop in Hl as [_ Hs].
  destruct (wrap_ends (hd false q) l Hs He) as (Ws & We & Wn).
  destruct ls as [|l' ls].
  - split; assumption.
  - rewrite header_line_cons.
    destruct (IH (tl q)) as [_ IHe]; [discriminate|assumption|].
    split; [now apply starts_ok_app|].
    rewrite ends_ok_app by discriminate.
    change (String PyStr.comma (header_line (tl q) (l' :: ls)))
      with (String PyStr.comma "" ++ header_line (tl q) (l' :: ls))%string.
    rewrite ends_ok_app; [assumption|].
    intros E. rewrite E in IHe. discriminate.
Qed.

Lemma header_ok_fields labels : forall q,
  forallb header_label_ok labels = true ->
  fields_ok q labels = true /\ forallb plain_label labels = true.
Proof.
  induction labels as [|l ls IH]; intros q H; [split; reflexivity|].
  simpl in H. apply andb_prop in H as [Hl Hls].
  destruct (IH (tl q) Hls) as [I1 I2].
  unfold header_label_ok in Hl.
  apply andb_prop in Hl as [Hl _]. apply andb_prop in Hl as [Hl _].
  apply andb_prop in Hl as [Hf Hp].
  simpl. rewrite I1, I2, Hp, andb_true_r. split; [|reflexivity].
  destruct (hd false q); [|assumption].
  clear -Hf. induction l as [|c l IHl]; [reflexivity|].
  apply field_ok_cons in Hf as (Hq & He & _ & Hf).
  unfold field_ok in *. simpl. unfold PyStr.is_dquote. rewrite Hq, He. simpl.
  now apply IHl.
Qed.

(** The label lists of the supported languages. *)
Lemma header_values_ok L include_optional labels :
  _is_language_supported L = true ->
  _header_values_for L include_optional = inr labels ->
  forallb header_label_ok labels = true
  /\ distinct labels = true
  /\ labels <> []
  /\ (labels = full_labels L \/ labels = short_labels L).
Proof.
  intros S H.
  destruct (supported_cases L S) as [-> | [-> | ->]]; destruct include_optional;
    vm_compute in H; injection H as <-;
    (split; [vm_compute; reflexivity|]); (split; [vm_compute; reflexivity|]);
    (split; [discriminate|]); vm_compute; auto.
Qed.

(** [identify] accepts a written file whose header has the labels of the
    language. *)
Lemma written_header_accepted L include_optional labels q rest :
  _is_language_supported L = true ->
  _header_values_for L include_optional = inr labels ->
  is_valid_header L (first_line (csv_file ((q, labels) :: rest))) = inr true.
Proof.
  intros S H.
  destruct (header_values_ok L include_optional labels S H) as (Hok & _ & Hne & Hl).
  destruct (header_ok_fields labels q Hok) as [Hf Hp].
  destruct (header_line_strip labels q Hne Hok) as [Hs He].
  rewrite csv_file_cons. simpl fst. simpl snd.
  rewrite first_line_of_line;
    [|now apply header_line_no_break|reflexivity].
  unfold PyStr.strip. rewrite lstrip_starts_ok, rstrip_ends_ok by assumption.
  rewrite (is_valid_header_eq L _ S).
  rewrite header_tokens_header_line by assumption.
  destruct (header_values_supported L S) as (_ & _ & Lf & Ls & _).
  destruct Hl as [-> | ->].
  - now rewrite Nat.eqb_refl, all_equal_refl.
  - rewrite Lf, Ls. simpl. now rewrite all_equal_refl.
Qed.

(** ** The rows of [csv.DictReader] *)

Lemma dict_get_set_same {V} k (v : V) d : dict_get k (dict_set k v d) = Some v.
Proof.
  induction d as [|[k' v'] d IH]; simpl.
  - now rewrite String.eqb_refl.
  - destruct (String.eqb k' k) eqn:E; simpl; rewrite E; [reflexivity|exact IH].
Qed.

Lemma dict_get_set_other {V} k k' (v : V) d :
  k <> k' -> dict_get k (dict_set k' v d) = dict_get k d.
Proof.
  intros Hne. induction d as [|[k0 v0] d IH]; simpl.
  - destruct (String.eqb_spec k' k); [congruence|reflexivity].
  - destruct (String.eqb_spec k0 k') as [->|E]; simpl.
    + destruct (String.eqb_spec k' k); [congruence|reflexivity].
    + destruct (String.eqb k0 k); [reflexivity|exact IH].
Qed.

Section FoldSet.
Context {A V : Type} (kf : A -> string) (vf : A -> V).

Let assign (l : list A) (d : dict V) : dict V :=
  fold_left (fun d a => dict_set (kf a) (vf a) d) l d.

Lemma fold_set_other l : forall d k,
  ~ In k (map kf l) -> dict_get k (assign l d) = dict_get k d.
Proof.
  induction l as [|a l IH]; intros d k Hnot; [reflexivity|].
  simpl in *. unfold assign in *. simpl. rewrite IH by tauto.
  apply dict_get_set_other. intros ->. tauto.
Qed.

Lemma fold_set_in l : forall d a,
  NoDup (map kf l) -> In a l -> dict_get (kf a) (assign l d) = Some (vf a).
Proof.
  induction l as [|a0 l IH]; intros d a N Hin; [destruct Hin|].
  simpl in N. inversion N as [|? ? Hnot N']; subst.
  unfold assign in *. simpl. destruct Hin as [->|Hin].
  - rewrite fold_set_other by assumption. apply dict_get_set_same.
  - now apply IH.
Qed.
End FoldSet.

Lemma combine_fst {A B} (l : list A) : forall (r : list B),
  map fst (combine l r) = firstn (List.length r) l.
Proof.
  induction l as [|a l IH]; intros [|b r]; simpl; try reflexivity.
  now rewrite IH.
Qed.

Lemma nth_error_combine {A B} (l : list A) : forall (r : list B) i a b,
  nth_error l i = Some a -> nth_error r i = Some b -> In (a, b) (combine l r).
Proof.
  induction l as [|x l IH]; intros [|y r] [|i] a b Ha Hb; simpl in *;
    try discriminate.
  - injection Ha as ->. injection Hb as ->. now left.
  - right. now apply (IH r i).
Qed.

Lemma NoDup_app_disjoint {A} (a b : list A) x :
  NoDup (a ++ b) -> In x a -> ~ In x b.
Proof.
  induction a as [|y a IH]; simpl; intros N Hin; [destruct Hin|].
  inversion N as [|? ? Hnot N']; subst.
  destruct Hin as [->|Hin]; [|now apply IH].
  intros Hb. apply Hnot. apply in_or_app. now right.
Qed.

(** Looking up a field name in a row: the value at its position, or
    [None] when the record is too short. *)
Lemma make_row_get fieldnames r i k :
  NoDup fieldnames ->
  nth_error fieldnames i = Some k ->
  dict_get k (Csv.make_row fieldnames r) = Some (nth_error r i).
Proof.
  intros N Hk. unfold Csv.make_row.
  pose proof (firstn_skipn (List.length r) fieldnames) as Split.
  assert (N' : NoDup (firstn (List.length r) fieldnames
                      ++ skipn (List.length r) fieldnames)) by now rewrite Split.
  destruct (nth_error r i) as [v|] eqn:Hv.
  - assert (Hlt : i < List.length r) by (apply nth_error_Some; congruence).
    rewrite (fold_set_other (fun k => k) (fun _ => @None string)).
    + apply (fold_set_in fst (fun kv => Some (snd kv)) _ [] (k, v)).
      * rewrite combine_fst. now apply NoDup_app_remove_r in N'.
      * now apply (nth_error_combine fieldnames r i).
    + rewrite map_id. apply (NoDup_app_disjoint _ _ _ N').
      apply (nth_error_In _ i). now rewrite nth_error_firstn, (proj2 (Nat.ltb_lt _ _) Hlt).
  - assert (Hge : List.length r <= i) by now apply nth_error_None.
    apply (fold_set_in (fun k => k) (fun _ => @None string)).
    + rewrite map_id. now apply NoDup_app_remove_l in N'.
    + apply (nth_error_In _ (i - List.length r)).
      rewrite nth_error_skipn. now replace (List.length r + (i - List.length r)) with i by lia.
Qed.

Lemma index_of_nth lbl labels : forall i,
  index_of lbl labels = Some i -> nth_error labels i = Some lbl.
Proof.
  induction labels as [|l rest IH]; simpl; intros i H; [discriminate|].
  destruct (String.eqb_spec l lbl) as [->|Hne].
  - now injection H as <-.
  - destruct (index_of lbl rest) as [j|]; [|discriminate].
    injection H as <-. simpl. now apply IH.
Qed.

(** ** From the text of a file to its transactions *)

(** The columns [extract] reads are in the header, for either list of
    labels. *)
Lemma required_label_index ib ac L enc aps self include_optional labels key :
  init ib ac L enc aps = inr self ->
  _header_values_for L include_optional = inr labels ->
  In key required_keys ->
  exists lbl i,
    dict_get key (_translation_strings self) = Some lbl
    /\ index_of lbl labels = Some i.
Proof.
  intros H Hl Hkey. apply init_inv in H as (S & _ & _ & _ & T & _).
  revert T. generalize (_translation_strings self). intros ts T.
  destruct (supported_cases L S) as [-> | [-> | ->]]; destruct include_optional;
    vm_compute in T; injection T as <-;
    vm_compute in Hl; injection Hl as <-;
    destruct Hkey as [<-|[<-|[<-|[<-|[]]]]]; vm_compute; eauto.
Qed.

Section Written.
Variables (ib ac L enc : string) (aps : dict (list string)) (self : N26Importer).
Variables (include_optional : bool) (labels : list string).
Hypothesis Hinit : init ib ac L enc aps = inr self.
Hypothesis Hlabels : _header_values_for L include_optional = inr labels.

Lemma row_field_written key fields :
  In key required_keys ->
  row_field self key (Csv.make_row labels fields)
  = Some (written_field self labels key fields).
Proof.
  intros Hkey.
  destruct (required_label_index _ _ _ _ _ _ _ _ key Hinit Hlabels Hkey)
    as (lbl & i & Hlbl & Hi).
  pose proof Hinit as S. apply init_inv in S as (S & _).
  destruct (header_values_ok L include_optional labels S Hlabels) as (_ & D & _).
  unfold row_field, written_field. rewrite Hlbl, Hi.
  apply make_row_get; [now apply distinct_NoDup|now apply index_of_nth].
Qed.



End Written.



(** A written file is identified, and its rows are those of its records. *)
Lemma written_file_rows ib ac L enc aps self fs file_ include_optional labels q data :
  init ib ac L enc aps = inr self ->
  _header_values_for L include_optional = inr labels ->
  fs (name file_) (file_encoding self)
  = TextIO.Decoded (csv_file ((q, labels) :: data)) ->
  forallb record_ok data = true ->
  identify self fs file_ = inr true
  /\ open_rows self fs file_ = inr (map (Csv.make_row labels) (map snd data)).
Proof.
  intros Hinit Hlabels Hfs Hok.
  pose proof Hinit as S. apply init_inv in S as (S & HL & _).
  destruct (header_values_ok L include_optional labels S Hlabels) as (Hlok & _ & Hne & _).
  destruct (header_ok_fields labels q Hlok) as [Hf _].
  destruct (header_line_strip labels q Hne Hlok) as [Hs _].
  assert (Hall : forallb record_ok ((q, labels) :: data) = true).
  { simpl. rewrite Hok, andb_true_r. unfold record_ok. simpl. rewrite Hf. simpl.
    destruct (header_line q labels); [discriminate|reflexivity]. }
  split.
  - rewrite (identify_decoded self fs file_ _ Hfs), HL.
    now apply (written_header_accepted L include_optional).
  - rewrite (open_rows_decoded self fs file_ _ Hfs).
    now rewrite rows_of_csv_file.
Qed.

(** X17. In a written file, a record that is too short to reach the
    column of the EUR amount is not skipped: its amount is [None],
    [Decimal] raises [TypeError] on it, and [extract] raises. *)
Theorem short_record_raises order ib ac L enc aps self fs file_
    include_optional labels q data r :
  init ib ac L enc aps = inr self ->
  _header_values_for L include_optional = inr labels ->
  fs (name file_) (file_encoding self)
  = TextIO.Decoded (csv_file ((q, labels) :: data)) ->
  forallb record_ok data = true ->
  In r data ->
  written_field self labels "amount_eur" (snd r) = None ->
  parse_amount self (Csv.make_row labels (snd r)) = inl TypeError
  /\ raises (extract order self fs file_).
Proof.
  intros Hinit Hlabels Hfs Hok Hin Hshort.
  destruct (written_file_rows _ _ _ _ _ _ _ _ _ _ _ _ Hinit Hlabels Hfs Hok)
    as [Hid Hrows].
  assert (Ha : parse_amount self (Csv.make_row labels (snd r)) = inl TypeError).
  { pose proof (row_field_written _ _ _ _ _ _ _ _ Hinit Hlabels "amount_eur" (snd r))
      as E.
    unfold row_field in E. unfold parse_amount, _translate, dict_item.
    destruct (dict_get "amount_eur" (_translation_strings self)) as [k|].
    - simpl. rewrite E by (unfold required_keys; simpl; tauto).
      now rewrite Hshort.
    - assert (None = Some (written_field self labels "amount_eur" (snd r)))
        by (apply E; unfold required_keys; simpl; tauto).
      discriminate. }
  split; [assumption|].
  unfold extract. rewrite Hid. simpl.
  apply raises_bind_r; intros k1 Hk1.
  apply raises_bind_r; intros k2 _.
  apply raises_bind_r; intros k3 _.
  rewrite Hrows. simpl.
  apply (extract_loop_raises _ _ _ _ _ _ (Csv.make_row labels (snd r))).
  - apply in_map. now apply in_map.
  - intros index. apply extract_row_raises_amount; [assumption|].
    rewrite Ha. eexists. reflexivity.
Qed.

Lemma short_record_raises_witness :
  parse_amount sample_importer
    (Csv.make_row (full_labels "en") ["2021-03-06"; "Bakery"]) = inl TypeError
  /\ raises (extract (fun l => l) sample_importer short_record_fs sample_file).
Proof.
  apply (short_record_raises (fun l => l) _ _ _ _ _ sample_importer short_record_fs
           sample_file true (full_labels "en") [] short_record_data
           ([], ["2021-03-06"; "Bakery"]) sample_importer_init).
  - vm_compute. reflexivity.
  - reflexivity.
  - vm_compute. reflexivity.
  - right. left. reflexivity.
  - vm_compute. reflexivity.
Defined.

(** ** Without payee patterns *)

(** X18. An importer constructed without payee patterns, as by default,
    has no rule, and every transaction it extracts has exactly one
    posting, on its own account. *)
Theorem no_patterns_one_posting order ib ac L enc self fs file_ txns t :
  init ib ac L enc [] = inr self ->
  (forall l, Permutation l (order l)) ->
  extract order self fs file_ = inr txns ->
  In t txns ->
  payee_patterns self = []
  /\ exists amount, postings t = [own_posting self amount].
Proof.
  intros Hinit Hperm H Hin.
  apply init_inv in Hinit as (_ & _ & _ & _ & _ & seen & Hacc).
  simpl in Hacc. injection Hacc as _ Hpats.
  split; [now symmetry|].
  destruct (extract_inv _ _ _ _ _ _ H Hin) as (k1 & k2 & k3 & i & line & Hr).
  apply extract_row_postings in Hr as (amount & m & Hm & _ & ->).
  rewrite <- Hpats in Hm.
  assert (E : order [] = []) by (apply Permutation_nil, Hperm).
  rewrite E in Hm. simpl in Hm. injection Hm as <-.
  exists amount. reflexivity.
Qed.

Lemma no_patterns_one_posting_witness :
  payee_patterns plain_importer = []
  /\ exists amount,
       postings (nth 0 plain_transactions blank_transaction)
       = [own_posting plain_importer amount].
Proof.
  apply (no_patterns_one_posting (fun l => l) "DE00" "Assets:N26" "en" "utf-8"
           plain_importer sample_fs sample_file plain_transactions).
  - reflexivity.
  - intros l. apply Permutation_refl.
  - vm_compute. reflexivity.
  - left. reflexivity.
Defined.

